(** * EC2 manager: the lifecycle and reporting orchestrator

    A shallow embedding of [ec2_manager/core.py], [ec2_manager/utils.py] and
    [ec2_manager/exceptions.py].  The orchestrator is glue around the AWS SDK,
    so the embedding is a small exception-and-trace monad: every SDK operation
    that reaches the provider (or that the source guards with an [except]
    clause) is an event answered by an oracle that may depend on everything
    that happened before, and the trace of events is part of the result. *)

From Stdlib Require Import String Ascii List ZArith QArith Qround Bool Lia.
Import ListNotations.
Local Close Scope Q_scope.
Local Open Scope string_scope.

(** ** Python values and exceptions *)

(** The values a YAML configuration document is made of.  Mappings keep their
    insertion order, as Python dictionaries do; a lookup takes the first entry
    with the key. *)
#[warnings="-register-all"] Inductive pyval : Type :=
| PNone
| PBool (b : bool)
| PInt (n : Z)
| PStr (s : string)
| PList (items : list pyval)
| PDict (entries : list (string * pyval)).

(** Exception classes: those of botocore the source names, the three of
    [exceptions.py], and the builtin ones its statements can raise. *)
Inductive exn : Type :=
| NoCredentialsError
| PartialCredentialsError
| ClientError (msg : string)
| WaiterError (msg : string)
| SdkError (cls msg : string)
| ConfigError (msg : string)
| AWSAuthError (msg : string)
| OperationError (msg : string)
| ValueError (msg : string)
| TypeError (msg : string)
| KeyError (key : string)
| AttributeError (msg : string)
| OSError (msg : string).

Inductive outcome (A : Type) : Type :=
| Returns (a : A)
| Raises (e : exn).
Arguments Returns {A} a.
Arguments Raises {A} e.

(** [except (NoCredentialsError, PartialCredentialsError)] *)
Definition credentials_error (e : exn) : bool :=
  match e with
  | NoCredentialsError | PartialCredentialsError => true
  | _ => false
  end.

Fixpoint dict_lookup (key : string) (entries : list (string * pyval)) : option pyval :=
  match entries with
  | [] => None
  | (k, v) :: rest => if String.eqb k key then Some v else dict_lookup key rest
  end.

(** [d.get(key, default)] *)
Definition py_get (d : pyval) (key : string) (default : pyval) : outcome pyval :=
  match d with
  | PDict entries =>
      Returns (match dict_lookup key entries with Some v => v | None => default end)
  | _ => Raises (AttributeError "object has no attribute 'get'")
  end.

(** [d[key]] *)
Definition py_getitem (d : pyval) (key : string) : outcome pyval :=
  match d with
  | PDict entries =>
      match dict_lookup key entries with
      | Some v => Returns v
      | None => Raises (KeyError key)
      end
  | _ => Raises (TypeError "object is not subscriptable by a string key")
  end.

(** Truth value of an object in an [if] or under [or]. *)
Definition truthy (v : pyval) : bool :=
  match v with
  | PNone => false
  | PBool b => b
  | PInt n => negb (Z.eqb n 0)
  | PStr s => negb (String.eqb s "")
  | PList items => match items with [] => false | _ => true end
  | PDict entries => match entries with [] => false | _ => true end
  end.

Fixpoint chars (s : string) : list pyval :=
  match s with
  | EmptyString => []
  | String c rest => PStr (String c EmptyString) :: chars rest
  end.

(** [list(v)] *)
Definition py_list (v : pyval) : outcome (list pyval) :=
  match v with
  | PList items => Returns items
  | PStr s => Returns (chars s)
  | PDict entries => Returns (map (fun kv => PStr (fst kv)) entries)
  | _ => Raises (TypeError "object is not iterable")
  end.

(** [int(v)]; the reading of a string as an integer literal is a parameter
    ([int_literal]), everything else is fixed by the type of the value. *)
Definition py_int (int_literal : string -> outcome Z) (v : pyval) : outcome Z :=
  match v with
  | PInt n => Returns n
  | PBool b => Returns (if b then 1%Z else 0%Z)
  | PStr s => int_literal s
  | _ => Raises (TypeError "int() argument must be a string, a bytes-like object or a real number")
  end.

(** The float arithmetic the report uses: builtin [sum] over floats, true
    division by an [int], [<] and [round(x, 2)]. *)
Class PyFloat : Type := {
  float : Type;
  float_zero : float;
  float_sum : list float -> float;
  float_div_int : float -> nat -> float;
  float_lt : float -> float -> bool;
  float_round2 : float -> float
}.

(** ** Provider data *)

Record Session : Type := {
  profile_name : option string;
  region_name : option string
}.

Record Client : Type := {
  client_session : Session;
  service_name : string
}.

Record Waiter : Type := {
  waiter_client : Client;
  waiter_name : string
}.

(** An [ec2.Instance] resource object: the handle, and the attributes a
    [load] or [reload] fills in. *)
Record InstanceResource : Type := {
  resource_of : Client;
  instance_id_of : string
}.

Record instance_attrs : Type := {
  attr_state : option string;
  attr_private_ip_address : option string;
  attr_public_ip_address : option string
}.

Record Filter : Type := {
  filter_Name : string;
  filter_Values : list string
}.

Record run_params : Type := {
  rp_ImageId : pyval;
  rp_InstanceType : pyval;
  rp_MinCount : Z;
  rp_MaxCount : Z;
  rp_ClientToken : string;
  rp_KeyName : option pyval;
  rp_SubnetId : option pyval;
  rp_SecurityGroupIds : option (list pyval);
  rp_UserData : option pyval;
  rp_TagSpecifications : option pyval
}.

Record launched : Type := { launched_InstanceId : option string }.
Record run_response : Type := { resp_Instances : option (list launched) }.

Record attachment : Type := { att_InstanceId : option string }.

Record volume : Type := {
  vol_VolumeId : option string;
  vol_Size : option Z;
  vol_State : option string;
  vol_VolumeType : option string;
  vol_Iops : option Z;
  vol_Throughput : option Z;
  vol_AvailabilityZone : option string;
  vol_Attachments : option (list attachment)
}.
Record volume_page : Type := { page_Volumes : option (list volume) }.

Record instance_state : Type := { state_Name : option string }.
Record instance : Type := {
  inst_InstanceId : option string;
  inst_InstanceType : option string;
  inst_State : option instance_state
}.
Record reservation : Type := {
  res_OwnerId : option string;
  res_Instances : option (list instance)
}.
Record reservation_page : Type := { page_Reservations : option (list reservation) }.

Record region_entry : Type := { entry_RegionName : option string }.
Record regions_response : Type := { resp_Regions : option (list region_entry) }.

(** A page iterator, drained: the pages it yields and the exception, if any,
    that ends the iteration after them. *)
Record paged (P : Type) : Type := {
  pages : list P;
  failure : option exn
}.
Arguments pages {P} p.
Arguments failure {P} p.

Record metric_request : Type := {
  mr_Namespace : string;
  mr_MetricName : string;
  mr_Dimensions : list (string * option string);
  mr_StartTime : Z;
  mr_EndTime : Z;
  mr_Period : Z;
  mr_Statistics : list string
}.

(** ** Results *)

Record lifecycle_result : Type := {
  lr_InstanceId : string;
  lr_State : option string;
  lr_Message : option string
}.

Record create_result : Type := {
  cr_InstanceId : string;
  cr_State : option string;
  cr_PrivateIpAddress : option string;
  cr_PublicIpAddress : option string
}.

Record volume_record : Type := {
  vr_VolumeId : option string;
  vr_SizeGiB : option Z;
  vr_State : option string;
  vr_VolumeType : option string;
  vr_Iops : option Z;
  vr_Throughput : option Z;
  vr_AvailabilityZone : option string;
  vr_AttachedInstances : list (option string)
}.

Record orphaned_volume : Type := {
  ov_Region : string;
  ov_VolumeId : option string;
  ov_SizeGiB : option Z;
  ov_State : option string
}.

Record EC2Manager : Type := {
  ec2_client : Client;
  ec2_res : Client;
  cw_client : Client;
  sts_client : Client
}.

(** ** SDK operations, events and the environment *)

Section Embedding.

Context {FL : PyFloat}.

Record datapoint : Type := { dp_Average : option float }.
Record metric_response : Type := { resp_Datapoints : option (list datapoint) }.

Record idle_instance : Type := {
  ii_Region : string;
  ii_InstanceId : option string;
  ii_AverageCPU14d : float;
  ii_InstanceType : option string
}.

Record report : Type := {
  idle_instances : list idle_instance;
  orphaned_volumes : list orphaned_volume
}.

(** The operations of the SDK and of the runtime, indexed by what they
    return.  [IterVolumePages] and [IterInstancePages] stand for the [for]
    loop draining a page iterator. *)
Inductive call : Type -> Type :=
| ReadYaml (filepath : string) : call pyval
| Uuid4 : call string
| Utcnow : call Z
| SessionNew (profile region : option string) : call unit
| SessionClient (s : Session) (service : string) : call unit
| SessionResource (s : Session) (service : string) : call unit
| InstanceLoad (r : InstanceResource) : call instance_attrs
| InstanceReload (r : InstanceResource) : call instance_attrs
| InstanceWaitUntilRunning (r : InstanceResource) : call unit
| WaiterWait (w : Waiter) (InstanceIds : list string) : call unit
| StopInstances (c : Client) (InstanceIds : list string) : call unit
| StartInstances (c : Client) (InstanceIds : list string) : call unit
| TerminateInstances (c : Client) (InstanceIds : list string) : call unit
| RunInstances (c : Client) (params : run_params) : call run_response
| GetPaginator (c : Client) (operation : string) : call unit
| Paginate (c : Client) (operation : string) (Filters : option (list Filter)) : call unit
| IterVolumePages (c : Client) (Filters : option (list Filter)) : call (paged volume_page)
| IterInstancePages (c : Client) (Filters : option (list Filter)) : call (paged reservation_page)
| DescribeRegions (c : Client) (AllRegions : bool) : call regions_response
| GetMetricStatistics (c : Client) (req : metric_request) : call metric_response.

(** An event: an operation and how it ended. *)
Inductive event : Type :=
| Ev {R : Type} (c : call R) (o : outcome R).

(** The history of a run, most recent event first. *)
Definition history : Type := list event.

(** The requests that change provider state. *)
Definition mutating (e : event) : bool :=
  match e with
  | Ev (StopInstances _ _) _ => true
  | Ev (StartInstances _ _) _ => true
  | Ev (TerminateInstances _ _) _ => true
  | Ev (RunInstances _ _) _ => true
  | _ => false
  end.

(** What the program runs against: the SDK with the provider and the file
    system behind it, the random and time sources, the process environment
    and the integer-literal reader of [int]. *)
Record Env : Type := {
  sdk : forall R : Type, history -> call R -> outcome R;
  uuid4 : history -> string;
  utcnow : history -> Z;
  environ : string -> option string;
  int_literal : string -> outcome Z
}.

(** ** The monad: exceptions over a growing history *)

Definition M (A : Type) : Type := history -> outcome A * history.

Definition ret {A : Type} (a : A) : M A := fun h => (Returns a, h).

Definition raise {A : Type} (e : exn) : M A := fun h => (Raises e, h).

Definition lift {A : Type} (o : outcome A) : M A := fun h => (o, h).

Definition bind {A B : Type} (m : M A) (k : A -> M B) : M B :=
  fun h =>
    match m h with
    | (Returns a, h') => k a h'
    | (Raises e, h') => (Raises e, h')
    end.

(** [try: body except ...: handler] *)
Definition try_except {A : Type} (body : M A) (handler : exn -> M A) : M A :=
  fun h =>
    match body h with
    | (Returns a, h') => (Returns a, h')
    | (Raises e, h') => handler e h'
    end.

Notation "x <- m ;; k" := (bind m (fun x => k))
  (at level 61, m at next level, right associativity).
Notation "m ;;; k" := (bind m (fun _ => k))
  (at level 61, right associativity).

(** [for x in xs: body], the loop's variables threaded through as [acc]. *)
Fixpoint for_ {X S : Type} (xs : list X) (body : X -> S -> M S) (acc : S) : M S :=
  match xs with
  | [] => ret acc
  | x :: rest => acc' <- body x acc ;; for_ rest body acc'
  end.

(** [for page in page_it: body] *)
Definition for_pages {P S : Type} (page_it : paged P) (body : P -> S -> M S) (acc : S) : M S :=
  acc' <- for_ (pages page_it) body acc ;;
  match failure page_it with
  | Some e => raise e
  | None => ret acc'
  end.

(** Sequencing of pure steps that may raise. *)
Definition and_then {A B : Type} (o : outcome A) (k : A -> outcome B) : outcome B :=
  match o with
  | Returns a => k a
  | Raises e => Raises e
  end.
Notation "x <~ o ;; k" := (and_then o (fun x => k))
  (at level 61, o at next level, right associativity).

(** [[f(x) for x in xs]] *)
Fixpoint comprehension {X Y : Type} (f : X -> outcome Y) (xs : list X) : outcome (list Y) :=
  match xs with
  | [] => Returns []
  | x :: rest => y <~ f x ;; ys <~ comprehension f rest ;; Returns (y :: ys)
  end.

Definition or_empty {X : Type} (l : option (list X)) : list X :=
  match l with
  | Some xs => xs
  | None => []
  end.

Definition str_truthy (s : option string) : bool :=
  match s with
  | Some x => negb (String.eqb x "")
  | None => false
  end.

(** [a or b] on optional strings *)
Definition str_or (a b : option string) : option string :=
  if str_truthy a then a else b.

(** [state in (...)] and [state == name] on the name [inst.state.get("Name")] *)
Definition state_in (state : option string) (names : list string) : bool :=
  match state with
  | Some s => existsb (String.eqb s) names
  | None => false
  end.

Definition state_is (state : option string) (name : string) : bool :=
  state_in state [name].

Variable env : Env.

Definition perform {R : Type} (c : call R) : M R :=
  fun h => let o := sdk env R h c in (o, Ev c o :: h).

(** utils.py: [generate_client_token] *)
Definition generate_client_token : M string :=
  fun h => let token := uuid4 env h in (Returns token, Ev Uuid4 (Returns token) :: h).

Definition datetime_utcnow : M Z :=
  fun h => let now := utcnow env h in (Returns now, Ev Utcnow (Returns now) :: h).

(** utils.py: [load_config].  [ReadYaml] is [open] followed by
    [yaml.safe_load]. *)
Definition load_config (filepath : string) : M pyval :=
  loaded <- perform (ReadYaml filepath) ;;
  let data := if truthy loaded then loaded else PDict [] in
  match data with
  | PDict entries =>
      match dict_lookup "instance" entries with
      | Some (PDict _) => ret data
      | _ => raise (ValueError "Missing 'instance' section in configuration")
      end
  | _ => raise (ValueError "Configuration file must define a YAML mapping at the top level")
  end.

(** The session expression that [__init__] and the reports repeat:
    [Session(profile_name=profile, region_name=region) if profile else
    Session(region_name=region)]. *)
Definition new_session (region : option string) : M Session :=
  let profile := str_or (environ env "AWS_PROFILE") (environ env "AWS_DEFAULT_PROFILE") in
  if str_truthy profile then
    perform (SessionNew profile region) ;;;
    ret {| profile_name := profile; region_name := region |}
  else
    perform (SessionNew None region) ;;;
    ret {| profile_name := None; region_name := region |}.

Definition session_client (s : Session) (service : string) : M Client :=
  perform (SessionClient s service) ;;;
  ret {| client_session := s; service_name := service |}.

Definition session_resource (s : Session) (service : string) : M Client :=
  perform (SessionResource s service) ;;;
  ret {| client_session := s; service_name := service |}.

Definition get_waiter (c : Client) (name : string) : Waiter :=
  {| waiter_client := c; waiter_name := name |}.

(** The body of the [try] of [EC2Manager.__init__]. *)
Definition init_body (region_name : option string) : M EC2Manager :=
  session <- new_session region_name ;;
  ec2_client <- session_client session "ec2" ;;
  ec2_res <- session_resource session "ec2" ;;
  cw_client <- session_client session "cloudwatch" ;;
  sts_client <- session_client session "sts" ;;
  ret {| ec2_client := ec2_client; ec2_res := ec2_res;
         cw_client := cw_client; sts_client := sts_client |}.

Definition __init__ (region_name : option string) : M EC2Manager :=
  try_except (init_body region_name)
    (fun e =>
       match e with
       | NoCredentialsError | PartialCredentialsError =>
           raise (AWSAuthError "AWS credentials not found. Use IAM roles or SSO profiles.")
       | _ => raise e
       end).

(** [mgr = EC2Manager(region_name=...)] followed by a method call on [mgr],
    as every command of cli.py and every route of web.py does. *)
Definition with_manager {A : Type} (region_name : option string)
    (operation : EC2Manager -> M A) : M A :=
  mgr <- __init__ region_name ;;
  operation mgr.

Definition _get_instance_state (self : EC2Manager) (instance_id : string) : M (option string) :=
  inst <- try_except
            (perform (InstanceLoad {| resource_of := ec2_res self; instance_id_of := instance_id |}))
            (fun e =>
               match e with
               | NoCredentialsError | PartialCredentialsError =>
                   raise (AWSAuthError "Unable to locate credentials. Check AWS_PROFILE/SSO.")
               | _ => raise e
               end) ;;
  ret (attr_state inst).

Definition stop_instance (self : EC2Manager) (instance_id : string) : M lifecycle_result :=
  state <- _get_instance_state self instance_id ;;
  if state_in state ["stopped"; "stopping"] then
    let waiter := get_waiter (ec2_client self) "instance_stopped" in
    (if state_is state "stopping" then perform (WaiterWait waiter [instance_id]) else ret tt) ;;;
    ret {| lr_InstanceId := instance_id; lr_State := Some "stopped";
           lr_Message := Some "Already stopped" |}
  else if negb (state_is state "running") then
    ret {| lr_InstanceId := instance_id; lr_State := state;
           lr_Message := Some "Not in running state" |}
  else
    try_except
      (perform (StopInstances (ec2_client self) [instance_id]) ;;;
       let waiter := get_waiter (ec2_client self) "instance_stopped" in
       perform (WaiterWait waiter [instance_id]))
      (fun e =>
         match e with
         | NoCredentialsError | PartialCredentialsError =>
             raise (AWSAuthError "Unable to locate credentials. Check AWS_PROFILE/SSO.")
         | ClientError msg =>
             raise (OperationError ("Failed to stop instance " ++ instance_id ++ ": " ++ msg))
         | _ => raise e
         end) ;;;
    ret {| lr_InstanceId := instance_id; lr_State := Some "stopped"; lr_Message := None |}.

Definition start_instance (self : EC2Manager) (instance_id : string) : M lifecycle_result :=
  state <- _get_instance_state self instance_id ;;
  if state_in state ["running"; "pending"] then
    let waiter := get_waiter (ec2_client self) "instance_running" in
    (if state_is state "pending" then perform (WaiterWait waiter [instance_id]) else ret tt) ;;;
    ret {| lr_InstanceId := instance_id; lr_State := Some "running";
           lr_Message := Some "Already running" |}
  else if negb (state_is state "stopped") then
    ret {| lr_InstanceId := instance_id; lr_State := state;
           lr_Message := Some "Not in stopped state" |}
  else
    try_except
      (perform (StartInstances (ec2_client self) [instance_id]) ;;;
       let waiter := get_waiter (ec2_client self) "instance_running" in
       perform (WaiterWait waiter [instance_id]))
      (fun e =>
         match e with
         | NoCredentialsError | PartialCredentialsError =>
             raise (AWSAuthError "Unable to locate credentials. Check AWS_PROFILE/SSO.")
         | ClientError msg =>
             raise (OperationError ("Failed to start instance " ++ instance_id ++ ": " ++ msg))
         | _ => raise e
         end) ;;;
    ret {| lr_InstanceId := instance_id; lr_State := Some "running"; lr_Message := None |}.

Definition terminate_instance (self : EC2Manager) (instance_id : string) : M lifecycle_result :=
  state <- _get_instance_state self instance_id ;;
  if state_in state ["shutting-down"; "terminated"] then
    let waiter := get_waiter (ec2_client self) "instance_terminated" in
    (if state_is state "shutting-down" then perform (WaiterWait waiter [instance_id]) else ret tt) ;;;
    ret {| lr_InstanceId := instance_id; lr_State := Some "terminated";
           lr_Message := Some "Already terminated" |}
  else
    try_except
      (perform (TerminateInstances (ec2_client self) [instance_id]) ;;;
       let waiter := get_waiter (ec2_client self) "instance_terminated" in
       perform (WaiterWait waiter [instance_id]))
      (fun e =>
         match e with
         | NoCredentialsError | PartialCredentialsError =>
             raise (AWSAuthError "Unable to locate credentials. Check AWS_PROFILE/SSO.")
         | ClientError msg =>
             raise (OperationError ("Failed to terminate instance " ++ instance_id ++ ": " ++ msg))
         | _ => raise e
         end) ;;;
    ret {| lr_InstanceId := instance_id; lr_State := Some "terminated"; lr_Message := None |}.

(** Lines 90-111 of [create_instance]: the [params] dictionary and its
    conditional keys. *)
Definition run_request_params (instance_cfg network_cfg user_data tags : pyval)
    (client_token : string) : outcome run_params :=
  image_id <~ py_get instance_cfg "ImageId" PNone ;;
  instance_type <~ py_get instance_cfg "InstanceType" PNone ;;
  min_count <~ (v <~ py_get instance_cfg "MinCount" (PInt 1) ;; py_int (int_literal env) v) ;;
  max_count <~ (v <~ py_get instance_cfg "MaxCount" (PInt 1) ;; py_int (int_literal env) v) ;;
  key_name <~ (v <~ py_get instance_cfg "KeyName" PNone ;;
               if truthy v then k <~ py_getitem instance_cfg "KeyName" ;; Returns (Some k)
               else Returns None) ;;
  subnet_id <~ (v <~ py_get network_cfg "SubnetId" PNone ;;
                if truthy v then k <~ py_getitem network_cfg "SubnetId" ;; Returns (Some k)
                else Returns None) ;;
  security_group_ids <~ (v <~ py_get network_cfg "SecurityGroupIds" PNone ;;
                         if truthy v then
                           k <~ py_getitem network_cfg "SecurityGroupIds" ;;
                           l <~ py_list k ;;
                           Returns (Some l)
                         else Returns None) ;;
  Returns {| rp_ImageId := image_id;
             rp_InstanceType := instance_type;
             rp_MinCount := min_count;
             rp_MaxCount := max_count;
             rp_ClientToken := client_token;
             rp_KeyName := key_name;
             rp_SubnetId := subnet_id;
             rp_SecurityGroupIds := security_group_ids;
             rp_UserData := if truthy user_data then Some user_data else None;
             rp_TagSpecifications :=
               if truthy tags then
                 Some (PList [PDict [("ResourceType", PStr "instance"); ("Tags", tags)]])
               else None |}.

Definition create_instance (self : EC2Manager) (config : pyval) : M create_result :=
  instance_cfg <- lift (py_get config "instance" (PDict [])) ;;
  network_cfg <- lift (py_get config "network" (PDict [])) ;;
  user_data <- lift (py_get config "user_data" PNone) ;;
  tags <- lift (py_get config "tags" (PList [])) ;;
  client_token <- generate_client_token ;;
  params <- lift (run_request_params instance_cfg network_cfg user_data tags client_token) ;;
  resp <- try_except
            (perform (RunInstances (ec2_client self) params))
            (fun e =>
               match e with
               | NoCredentialsError | PartialCredentialsError =>
                   raise (AWSAuthError "Unable to locate credentials. Check AWS_PROFILE/SSO.")
               | ClientError msg =>
                   raise (OperationError ("Failed to create instance: " ++ msg))
               | _ => raise e
               end) ;;
  let instances := or_empty (resp_Instances resp) in
  match instances with
  | [] => raise (OperationError "No instance created.")
  | first :: _ =>
      instance_id <- lift (match launched_InstanceId first with
                           | Some i => Returns i
                           | None => Raises (KeyError "InstanceId")
                           end) ;;
      let inst_res := {| resource_of := ec2_res self; instance_id_of := instance_id |} in
      perform (InstanceWaitUntilRunning inst_res) ;;;
      attrs <- perform (InstanceReload inst_res) ;;
      ret {| cr_InstanceId := instance_id;
             cr_State := attr_state attrs;
             cr_PrivateIpAddress := attr_private_ip_address attrs;
             cr_PublicIpAddress := attr_public_ip_address attrs |}
  end.

Definition list_volumes (self : EC2Manager) (status_filter : option string)
    : M (list volume_record) :=
  let filters :=
    match status_filter with
    | Some status => if String.eqb status "" then []
                     else [ {| filter_Name := "status"; filter_Values := [status] |} ]
    | None => []
    end in
  let Filters := match filters with [] => None | _ => Some filters end in
  try_except
    (perform (GetPaginator (ec2_client self) "describe_volumes") ;;;
     perform (Paginate (ec2_client self) "describe_volumes" Filters))
    (fun e =>
       match e with
       | NoCredentialsError | PartialCredentialsError =>
           raise (AWSAuthError "Unable to locate credentials. Check AWS_PROFILE/SSO.")
       | _ => raise e
       end) ;;;
  page_it <- perform (IterVolumePages (ec2_client self) Filters) ;;
  for_pages page_it
    (fun page results =>
       for_ (or_empty (page_Volumes page))
         (fun vol results =>
            let attachments := or_empty (vol_Attachments vol) in
            ret (results ++
                 [ {| vr_VolumeId := vol_VolumeId vol;
                      vr_SizeGiB := vol_Size vol;
                      vr_State := vol_State vol;
                      vr_VolumeType := vol_VolumeType vol;
                      vr_Iops := vol_Iops vol;
                      vr_Throughput := vol_Throughput vol;
                      vr_AvailabilityZone := vol_AvailabilityZone vol;
                      vr_AttachedInstances := map att_InstanceId attachments |} ])%list)
         results)
    [].

Definition _all_regions (self : EC2Manager) : M (list string) :=
  resp <- try_except
            (perform (DescribeRegions (ec2_client self) false))
            (fun e =>
               match e with
               | NoCredentialsError | PartialCredentialsError =>
                   raise (AWSAuthError "Unable to locate credentials. Check AWS_PROFILE/SSO.")
               | _ => raise e
               end) ;;
  lift (comprehension
          (fun r => match entry_RegionName r with
                    | Some name => Returns name
                    | None => Raises (KeyError "RegionName")
                    end)
          (or_empty (resp_Regions resp))).

(** Line 328: [sum(dp.get("Average", 0.0) for dp in datapoints) / len(datapoints)] *)
Definition mean_of_averages (datapoints : list datapoint) : float :=
  float_div_int
    (float_sum (map (fun dp => match dp_Average dp with
                               | Some a => a
                               | None => float_zero
                               end) datapoints))
    (length datapoints).

(** Timestamps are in seconds. *)
Definition _average_cpu_utilization (self : EC2Manager) (instance_id : option string)
    (region : string) (days : Z) : M (option float) :=
  end_ <- datetime_utcnow ;;
  let start := (end_ - days * 86400)%Z in
  session <- new_session (Some region) ;;
  cw <- session_client session "cloudwatch" ;;
  resp <- perform (GetMetricStatistics cw
                     {| mr_Namespace := "AWS/EC2";
                        mr_MetricName := "CPUUtilization";
                        mr_Dimensions := [("InstanceId", instance_id)];
                        mr_StartTime := start;
                        mr_EndTime := end_;
                        mr_Period := (3600 * 6)%Z;
                        mr_Statistics := ["Average"] |}) ;;
  let datapoints := or_empty (resp_Datapoints resp) in
  match datapoints with
  | [] => ret None
  | _ => ret (Some (mean_of_averages datapoints))
  end.

Definition inst_state_name (inst : instance) : option string :=
  match inst_State inst with
  | Some st => state_Name st
  | None => None
  end.

Definition find_wasteful_resources (self : EC2Manager) (regions : option (list string))
    (idle_cpu_threshold : float) : M report :=
  target_regions <- match regions with
                    | Some (r :: rs) => ret (r :: rs)
                    | _ => _all_regions self
                    end ;;
  for_ target_regions
    (fun region report =>
       session <- new_session (Some region) ;;
       ec2 <- session_client session "ec2" ;;
       perform (GetPaginator ec2 "describe_volumes") ;;;
       let Filters := Some [ {| filter_Name := "status"; filter_Values := ["available"] |} ] in
       perform (Paginate ec2 "describe_volumes" Filters) ;;;
       vol_pages <- perform (IterVolumePages ec2 Filters) ;;
       report <- for_pages vol_pages
                   (fun page report =>
                      for_ (or_empty (page_Volumes page))
                        (fun vol report =>
                           ret {| idle_instances := idle_instances report;
                                  orphaned_volumes :=
                                    (orphaned_volumes report ++
                                     [ {| ov_Region := region;
                                          ov_VolumeId := vol_VolumeId vol;
                                          ov_SizeGiB := vol_Size vol;
                                          ov_State := vol_State vol |} ])%list |})
                        report)
                   report ;;
       perform (GetPaginator ec2 "describe_instances") ;;;
       perform (Paginate ec2 "describe_instances" None) ;;;
       inst_pages <- perform (IterInstancePages ec2 None) ;;
       for_pages inst_pages
         (fun page report =>
            for_ (or_empty (page_Reservations page))
              (fun reservation report =>
                 for_ (or_empty (res_Instances reservation))
                   (fun inst report =>
                      if negb (state_is (inst_state_name inst) "running") then ret report
                      else
                        let instance_id := inst_InstanceId inst in
                        avg_cpu <- _average_cpu_utilization self instance_id region 14 ;;
                        match avg_cpu with
                        | Some avg =>
                            if float_lt avg idle_cpu_threshold then
                              ret {| idle_instances :=
                                       (idle_instances report ++
                                        [ {| ii_Region := region;
                                             ii_InstanceId := instance_id;
                                             ii_AverageCPU14d := float_round2 avg;
                                             ii_InstanceType := inst_InstanceType inst |} ])%list;
                                     orphaned_volumes := orphaned_volumes report |}
                            else ret report
                        | None => ret report
                        end)
                   report)
              report)
         report)
    {| idle_instances := []; orphaned_volumes := [] |}.

End Embedding.

(** ** Reading a history *)

Section Observations.

Context {FL : PyFloat}.

(** The values [uuid.uuid4()] has returned so far. *)
Definition token_drawn (e : event) : list string :=
  match e with
  | Ev c o =>
      match c in call R return outcome R -> list string with
      | Uuid4 => fun o => match o with Returns t => [t] | Raises _ => [] end
      | _ => fun _ => []
      end o
  end.

Definition tokens_drawn (h : history) : list string := flat_map token_drawn h.

(** The [ClientToken]s of the run requests submitted so far. *)
Definition token_submitted (e : event) : list string :=
  match e with
  | Ev (RunInstances _ params) _ => [rp_ClientToken params]
  | _ => []
  end.

Definition tokens_submitted (h : history) : list string := flat_map token_submitted h.

(** The events of [Session(...)], [session.client(...)] and
    [session.resource(...)]. *)
Definition construction (e : event) : bool :=
  match e with
  | Ev (SessionNew _ _) _ => true
  | Ev (SessionClient _ _) _ => true
  | Ev (SessionResource _ _) _ => true
  | _ => false
  end.

Variable env : Env.

(** The run request [create_instance] assembles from a configuration and a
    client token: its four section reads followed by [run_request_params]. *)
Definition assembled_request (config : pyval) (client_token : string) : outcome run_params :=
  match py_get config "instance" (PDict []) with
  | Raises e => Raises e
  | Returns instance_cfg =>
      match py_get config "network" (PDict []) with
      | Raises e => Raises e
      | Returns network_cfg =>
          match py_get config "user_data" PNone with
          | Raises e => Raises e
          | Returns user_data =>
              match py_get config "tags" (PList []) with
              | Raises e => Raises e
              | Returns tags =>
                  run_request_params env instance_cfg network_cfg user_data tags client_token
              end
          end
      end
  end.

(** The instances of a sequence of pages, in page order. *)
Definition instances_of (reservation_pages : list reservation_page) : list instance :=
  flat_map (fun page =>
              flat_map (fun reservation => or_empty (res_Instances reservation))
                (or_empty (page_Reservations page)))
    reservation_pages.

Definition volumes_of (volume_pages : list volume_page) : list volume :=
  flat_map (fun page => or_empty (page_Volumes page)) volume_pages.

(** The average of a bucket, 0.0 when the datapoint has none. *)
Definition bucket_average (dp : datapoint) : float :=
  match dp_Average dp with
  | Some average => average
  | None => float_zero
  end.

(** The simple unweighted mean of a sequence of values: their sum divided
    by their number, every value counting once. *)
Definition unweighted_mean (values : list float) : float :=
  float_div_int (float_sum values) (length values).

(** Idle: at least one datapoint, and the unweighted mean of the bucket
    averages strictly below the threshold. *)
Definition flags_idle (threshold : float) (datapoints : list datapoint) : bool :=
  match datapoints with
  | [] => false
  | _ => float_lt (unweighted_mean (map bucket_average datapoints)) threshold
  end.

(** What a provider holds while a report is made: per region the pages of
    reservations, and per region and instance the CPU datapoints. *)
Record inventory : Type := {
  reservations_in : string -> list reservation_page;
  datapoints_of : string -> option string -> option (list datapoint)
}.

Definition dimension_value (req : metric_request) : option string :=
  match mr_Dimensions req with
  | (_, value) :: _ => value
  | [] => None
  end.

(** The provider answers the calls of a report from the inventory: sessions,
    clients and paginators are built, iterations run to their end, and
    region-scoped clients get the data of their region. *)
Definition serves (inv : inventory) : Prop :=
  (forall h profile region, sdk env _ h (SessionNew profile region) = Returns tt) /\
  (forall h s service, sdk env _ h (SessionClient s service) = Returns tt) /\
  (forall h c operation, sdk env _ h (GetPaginator c operation) = Returns tt) /\
  (forall h c operation Filters, sdk env _ h (Paginate c operation Filters) = Returns tt) /\
  (forall h c Filters,
     exists volume_pages,
       sdk env _ h (IterVolumePages c Filters) =
         Returns {| pages := volume_pages; failure := None |}) /\
  (forall h c region,
     region_name (client_session c) = Some region ->
     sdk env _ h (IterInstancePages c None) =
       Returns {| pages := reservations_in inv region; failure := None |}) /\
  (forall h c req region,
     region_name (client_session c) = Some region ->
     sdk env _ h (GetMetricStatistics c req) =
       Returns {| resp_Datapoints := datapoints_of inv region (dimension_value req) |}).




(** A document [load_config] accepts: a mapping whose "instance" entry is a
    mapping. *)
Definition has_instance_section (doc : pyval) : bool :=
  match doc with
  | PDict entries =>
      match dict_lookup "instance" entries with
      | Some (PDict _) => true
      | _ => false
      end
  | _ => false
  end.

End Observations.

(** ** A scripted environment

    A concrete environment to run the operations in: exact rational
    arithmetic for the floats, and a provider that answers from a script. *)

#[local] Instance rational_floats : PyFloat := {|
  float := Q;
  float_zero := 0%Q;
  float_sum := fun xs => fold_left Qplus xs 0%Q;
  float_div_int := fun x n => (x / inject_Z (Z.of_nat n))%Q;
  float_lt := fun x y => negb (Qle_bool y x);
  float_round2 := fun x => Qmake (Qfloor (x * 100 + (1 # 2))%Q) 100
|}.

Record script : Type := {
  document : pyval;
  credentials : bool;
  current : instance_attrs;
  launch : run_response;
  volume_pages : list volume_page;
  instance_pages : list reservation_page;
  cpu : option string -> list (@datapoint rational_floats)
}.

(** A token longer than every token drawn before. *)
Fixpoint longer_than (tokens : list string) : string :=
  match tokens with
  | [] => "u"
  | t :: rest => t ++ longer_than rest
  end.

Fixpoint digits (s : string) (acc : Z) : option Z :=
  match s with
  | EmptyString => Some acc
  | String c rest =>
      let d := (Z.of_nat (nat_of_ascii c) - 48)%Z in
      if ((0 <=? d) && (d <=? 9))%Z%bool then digits rest (10 * acc + d)%Z else None
  end.

Definition decimal_literal (s : string) : outcome Z :=
  match s with
  | EmptyString => Raises (ValueError "invalid literal for int() with base 10")
  | _ => match digits s 0%Z with
         | Some n => Returns n
         | None => Raises (ValueError "invalid literal for int() with base 10")
         end
  end.

Definition scripted (sc : script) : Env :=
  {| sdk := fun R h c =>
       match c in call R return outcome R with
       | ReadYaml _ => Returns (document sc)
       | Uuid4 => Returns (longer_than (tokens_drawn h))
       | Utcnow => Returns (1700000000 + Z.of_nat (length h))%Z
       | SessionNew _ _ => Returns tt
       | SessionClient _ _ =>
           if credentials sc then Returns tt else Raises NoCredentialsError
       | SessionResource _ _ =>
           if credentials sc then Returns tt else Raises NoCredentialsError
       | InstanceLoad _ => Returns (current sc)
       | InstanceReload _ => Returns (current sc)
       | InstanceWaitUntilRunning _ => Returns tt
       | WaiterWait _ _ => Returns tt
       | StopInstances _ _ => Returns tt
       | StartInstances _ _ => Returns tt
       | TerminateInstances _ _ => Returns tt
       | RunInstances _ _ => Returns (launch sc)
       | GetPaginator _ _ => Returns tt
       | Paginate _ _ _ => Returns tt
       | IterVolumePages _ _ => Returns {| pages := volume_pages sc; failure := None |}
       | IterInstancePages _ _ => Returns {| pages := instance_pages sc; failure := None |}
       | DescribeRegions _ _ =>
           Returns {| resp_Regions := Some [ {| entry_RegionName := Some "us-east-1" |} ] |}
       | GetMetricStatistics _ req =>
           Returns {| resp_Datapoints :=
                        Some (cpu sc (match mr_Dimensions req with
                                      | (_, id) :: _ => id
                                      | [] => None
                                      end)) |}
       end;
     uuid4 := fun h => longer_than (tokens_drawn h);
     utcnow := fun h => (1700000000 + Z.of_nat (length h))%Z;
     environ := fun _ => None;
     int_literal := decimal_literal |}.

Definition attrs_in (state : string) : instance_attrs :=
  {| attr_state := Some state;
     attr_private_ip_address := Some "10.0.0.7";
     attr_public_ip_address := None |}.

Definition quiet : script :=
  {| document := PDict [("instance", PDict [])];
     credentials := true;
     current := attrs_in "running";
     launch := {| resp_Instances := Some [ {| launched_InstanceId := Some "i-0a1" |} ] |};
     volume_pages := [];
     instance_pages := [];
     cpu := fun _ => [] |}.

Definition with_state (state : string) : script :=
  {| document := document quiet;
     credentials := true;
     current := attrs_in state;
     launch := launch quiet;
     volume_pages := [];
     instance_pages := [];
     cpu := fun _ => [] |}.

Definition no_credentials : script :=
  {| document := document quiet;
     credentials := false;
     current := current quiet;
     launch := launch quiet;
     volume_pages := [];
     instance_pages := [];
     cpu := fun _ => [] |}.

Definition with_document (doc : pyval) : script :=
  {| document := doc;
     credentials := true;
     current := current quiet;
     launch := launch quiet;
     volume_pages := [];
     instance_pages := [];
     cpu := fun _ => [] |}.

Definition launching (instances : option (list launched)) : script :=
  {| document := document quiet;
     credentials := true;
     current := current quiet;
     launch := {| resp_Instances := instances |};
     volume_pages := [];
     instance_pages := [];
     cpu := fun _ => [] |}.

(** Two pages of volumes, one of them attached twice. *)
Definition two_volume_pages : list volume_page :=
  [ {| page_Volumes :=
         Some [ {| vol_VolumeId := Some "vol-1"; vol_Size := Some 8%Z;
                   vol_State := Some "in-use"; vol_VolumeType := Some "gp3";
                   vol_Iops := Some 3000%Z; vol_Throughput := Some 125%Z;
                   vol_AvailabilityZone := Some "us-east-1a";
                   vol_Attachments :=
                     Some [ {| att_InstanceId := Some "i-2" |};
                            {| att_InstanceId := Some "i-1" |} ] |} ] |};
    {| page_Volumes :=
         Some [ {| vol_VolumeId := Some "vol-2"; vol_Size := Some 20%Z;
                   vol_State := Some "available"; vol_VolumeType := Some "gp2";
                   vol_Iops := None; vol_Throughput := None;
                   vol_AvailabilityZone := Some "us-east-1b";
                   vol_Attachments := None |} ] |} ].

Definition with_volumes : script :=
  {| document := document quiet;
     credentials := true;
     current := current quiet;
     launch := launch quiet;
     volume_pages := two_volume_pages;
     instance_pages := [];
     cpu := fun _ => [] |}.

Definition an_instance (id state : string) : instance :=
  {| inst_InstanceId := Some id;
     inst_InstanceType := Some "t3.micro";
     inst_State := Some {| state_Name := Some state |} |}.

Definition bucket (average : Q) : @datapoint rational_floats :=
  {| dp_Average := Some average |}.

(** A fleet of four: one running at 3.2 percent, one at 5.0 exactly, one
    with no datapoints, and a stopped one at 1 percent. *)
Definition fleet : script :=
  {| document := document quiet;
     credentials := true;
     current := current quiet;
     launch := launch quiet;
     volume_pages := two_volume_pages;
     instance_pages :=
       [ {| page_Reservations :=
              Some [ {| res_OwnerId := Some "111122223333";
                        res_Instances := Some [ an_instance "i-low" "running";
                                                an_instance "i-edge" "running" ] |} ] |};
         {| page_Reservations :=
              Some [ {| res_OwnerId := Some "111122223333";
                        res_Instances := Some [ an_instance "i-silent" "running";
                                                an_instance "i-off" "stopped" ] |} ] |} ];
     cpu := fun id =>
              match id with
              | Some "i-low" => [bucket (22 # 10); bucket (42 # 10)]
              | Some "i-edge" => [bucket 4; bucket 6]
              | Some "i-off" => [bucket 1]
              | _ => []
              end |}.

(** The inventory a script amounts to. *)
Definition inventory_of (sc : script) : @inventory rational_floats :=
  {| reservations_in := fun _ => instance_pages sc;
     datapoints_of := fun _ id => Some (cpu sc id) |}.

Definition a_manager : EC2Manager :=
  let session := {| profile_name := None; region_name := Some "us-east-1" |} in
  {| ec2_client := {| client_session := session; service_name := "ec2" |};
     ec2_res := {| client_session := session; service_name := "ec2" |};
     cw_client := {| client_session := session; service_name := "cloudwatch" |};
     sts_client := {| client_session := session; service_name := "sts" |} |}.

(** ** What a computation adds to the history *)

Section Traces.

Context {FL : PyFloat}.

(** [h'] extends [h] by events that all satisfy [P]. *)
Definition adds (P : event -> Prop) (h h' : history) : Prop :=
  exists new, h' = (new ++ h)%list /\ Forall P new.

(** Whatever the environment answers, [m] adds only events satisfying [P]. *)
Definition only {A : Type} (P : event -> Prop) (m : M A) : Prop :=
  forall h, adds P h (snd (m h)).

(** The requests of the provider API that [e] may be, by kind. *)
Definition read_only (e : event) : Prop := mutating e = false.

Definition is_describe_regions (e : event) : bool :=
  match e with
  | Ev (DescribeRegions _ _) _ => true
  | _ => false
  end.

Definition is_wait (e : event) : bool :=
  match e with
  | Ev (WaiterWait _ _) _ => true
  | Ev (InstanceWaitUntilRunning _) _ => true
  | _ => false
  end.

(** The metric requests among the events. *)
Definition metric_request_of (e : event) : list (Client * metric_request) :=
  match e with
  | Ev (GetMetricStatistics c req) _ => [(c, req)]
  | _ => []
  end.

Definition metric_requests (h : history) : list (Client * metric_request) :=
  flat_map metric_request_of h.

(** The [Filters] argument [list_volumes] passes for a status filter: none
    for no filter or an empty one. *)
Definition status_filters (status_filter : option string) : option (list Filter) :=
  match status_filter with
  | Some status =>
      if String.eqb status "" then None
      else Some [ {| filter_Name := "status"; filter_Values := [status] |} ]
  | None => None
  end.

Definition named (name : string) : region_entry := {| entry_RegionName := Some name |}.

(** The provider answers the iteration of the volumes in status
    "available", and that request only, with the pages [volumes_in] holds
    for the region of the client. *)
Definition serves_volumes (env : Env) (volumes_in : string -> list volume_page) : Prop :=
  forall h c region,
    region_name (client_session c) = Some region ->
    sdk env _ h (IterVolumePages c
                   (Some [ {| filter_Name := "status"; filter_Values := ["available"] |} ])) =
      Returns {| pages := volumes_in region; failure := None |}.

End Traces.

(** ** The commands of cli.py *)

(** How a command ends when it does not raise: with its result printed on
    standard output (as JSON), or with [sys.exit(code)] after a message on
    standard error. *)
Inductive cli_exit (A : Type) : Type :=
| Printed (result : A)
| Exited (code : Z) (stderr : string).
Arguments Printed {A} result.
Arguments Exited {A} code stderr.

Section Commands.

Context {FL : PyFloat}.
Variable env : Env.

(** The handler every guarded command repeats:
    [except (AWSAuthError, OperationError) as e: click.echo(str(e), err=True);
    sys.exit(1)], and the [click.echo(json.dumps(result))] after it. *)
Definition echo_or_exit {A : Type} (operation : M A) : M (cli_exit A) :=
  try_except
    (bind operation (fun result => ret (Printed result)))
    (fun e =>
       match e with
       | AWSAuthError msg => ret (Exited 1 msg)
       | OperationError msg => ret (Exited 1 msg)
       | _ => raise e
       end).

Definition instance_create (region : option string) (config_path : string)
    : M (cli_exit create_result) :=
  bind (load_config env config_path) (fun cfg =>
  bind (__init__ env region) (fun mgr =>
  echo_or_exit (create_instance env mgr cfg))).

Definition instance_stop (region : option string) (instance_id : string)
    : M (cli_exit lifecycle_result) :=
  bind (__init__ env region) (fun mgr =>
  echo_or_exit (stop_instance env mgr instance_id)).

Definition instance_start (region : option string) (instance_id : string)
    : M (cli_exit lifecycle_result) :=
  bind (__init__ env region) (fun mgr =>
  echo_or_exit (start_instance env mgr instance_id)).

Definition instance_terminate (region : option string) (instance_id : string)
    : M (cli_exit lifecycle_result) :=
  bind (__init__ env region) (fun mgr =>
  echo_or_exit (terminate_instance env mgr instance_id)).

Definition volume_list (region : option string) (status : option string)
    : M (cli_exit (list volume_record)) :=
  bind (__init__ env region) (fun mgr =>
  echo_or_exit (list_volumes env mgr status)).

(** [regions=list(regions) or None]; the report commands have no [try]. *)
Definition report_cost (region : option string) (regions : list string)
    (idle_threshold : float) : M (cli_exit report) :=
  bind (__init__ env region) (fun mgr =>
  bind (find_wasteful_resources env mgr
          (match regions with [] => None | _ => Some regions end) idle_threshold)
       (fun data => ret (Printed data))).

End Commands.

(** ** Scripted environments with failures *)

(** [base], except where [special] has an answer of its own. *)
Definition answering (base : @Env rational_floats)
    (special : forall R : Type, history -> call R -> option (outcome R)) : Env :=
  {| sdk := fun R h c =>
       match special R h c with
       | Some o => o
       | None => sdk base R h c
       end;
     uuid4 := uuid4 base;
     utcnow := utcnow base;
     environ := environ base;
     int_literal := int_literal base |}.

(** The provider rejects every request that changes state. *)
Definition rejecting (sc : script) (msg : string) : Env :=
  answering (scripted sc)
    (fun R h c =>
       match c in call R return option (outcome R) with
       | StopInstances _ _ => Some (Raises (ClientError msg))
       | StartInstances _ _ => Some (Raises (ClientError msg))
       | TerminateInstances _ _ => Some (Raises (ClientError msg))
       | RunInstances _ _ => Some (Raises (ClientError msg))
       | _ => None
       end).

(** Every wait runs out of attempts. *)
Definition timing_out (sc : script) (msg : string) : Env :=
  answering (scripted sc)
    (fun R h c =>
       match c in call R return option (outcome R) with
       | WaiterWait _ _ => Some (Raises (WaiterError msg))
       | InstanceWaitUntilRunning _ => Some (Raises (WaiterError msg))
       | _ => None
       end).

(** The instance asked for does not exist. *)
Definition not_found (sc : script) (msg : string) : Env :=
  answering (scripted sc)
    (fun R h c =>
       match c in call R return option (outcome R) with
       | InstanceLoad _ => Some (Raises (ClientError msg))
       | _ => None
       end).

(** The volume iteration yields its pages and then fails with [e]. *)
Definition breaking_off (sc : script) (e : exn) : Env :=
  answering (scripted sc)
    (fun R h c =>
       match c in call R return option (outcome R) with
       | IterVolumePages _ _ => Some (Returns {| pages := volume_pages sc; failure := Some e |})
       | _ => None
       end).

(** Paginators cannot be built for want of credentials. *)
Definition without_paginators (sc : script) : Env :=
  answering (scripted sc)
    (fun R h c =>
       match c in call R return option (outcome R) with
       | GetPaginator _ _ => Some (Raises NoCredentialsError)
       | _ => None
       end).

(** [describe_regions] answers with the given entries. *)
Definition with_regions (sc : script) (entries : list region_entry) : Env :=
  answering (scripted sc)
    (fun R h c =>
       match c in call R return option (outcome R) with
       | DescribeRegions _ _ => Some (Returns {| resp_Regions := Some entries |})
       | _ => None
       end).

(** The process environment names profiles. *)
Definition with_environ (sc : script) (vars : string -> option string) : Env :=
  {| sdk := sdk (scripted sc);
     uuid4 := uuid4 (scripted sc);
     utcnow := utcnow (scripted sc);
     environ := vars;
     int_literal := int_literal (scripted sc) |}.

(** A configuration that names its security groups in one string. *)
Definition groups_in_a_string : pyval :=
  PDict [("instance", PDict [("ImageId", PStr "ami-1"); ("InstanceType", PStr "t3.micro")]);
         ("network", PDict [("SecurityGroupIds", PStr "sg-1")])].

(** AWS_PROFILE is set but empty, AWS_DEFAULT_PROFILE names a profile. *)
Definition default_profile_only (name : string) : option string :=
  if String.eqb name "AWS_PROFILE" then Some ""
  else if String.eqb name "AWS_DEFAULT_PROFILE" then Some "dev"
  else None.

(** A complete configuration. *)
Definition web_server : pyval :=
  PDict [("instance", PDict [("ImageId", PStr "ami-0abc"); ("InstanceType", PStr "t3.micro");
                             ("KeyName", PStr "ops")]);
         ("tags", PList [PDict [("Key", PStr "Name"); ("Value", PStr "web")]])].



(** A fleet told apart by how its buckets are combined (all values are
    dyadic, so that binary floating point computes on them exactly as the
    rationals do): [i-low] has mean 3.25 with its last bucket at 6,
    [i-edge] has mean 5 exactly with its last bucket at 4, [i-high] has mean
    6 with its first bucket at 2, [i-silent] has no datapoint, [i-off] is
    stopped at 1. *)
Definition mixed_fleet : script :=
  {| document := document quiet;
     credentials := true;
     current := current quiet;
     launch := launch quiet;
     volume_pages := two_volume_pages;
     instance_pages :=
       [ {| page_Reservations :=
              Some [ {| res_OwnerId := Some "111122223333";
                        res_Instances := Some [ an_instance "i-low" "running";
                                                an_instance "i-edge" "running";
                                                an_instance "i-high" "running" ] |} ] |};
         {| page_Reservations :=
              Some [ {| res_OwnerId := Some "111122223333";
                        res_Instances := Some [ an_instance "i-silent" "running";
                                                an_instance "i-off" "stopped" ] |} ] |} ];
     cpu := fun id =>
              match id with
              | Some "i-low" => [bucket (1 # 2); bucket 6]
              | Some "i-edge" => [bucket 6; bucket 4]
              | Some "i-high" => [bucket 2; bucket 10]
              | Some "i-off" => [bucket 1]
              | _ => []
              end |}.

Definition asks_for_available (Filters : option (list Filter)) : bool :=
  match Filters with
  | Some [f] =>
      String.eqb (filter_Name f) "status" &&
      match filter_Values f with
      | [v] => String.eqb v "available"
      | _ => false
      end
  | _ => false
  end.

(** A provider that honours the status filter: asked for the available
    volumes it returns the unattached one only. *)
Definition honouring_the_filter (sc : script) : Env :=
  answering (scripted sc)
    (fun R h c =>
       match c in call R return option (outcome R) with
       | IterVolumePages _ Filters =>
           if asks_for_available Filters
           then Some (Returns {| pages := skipn 1 (volume_pages sc); failure := None |})
           else None
       | _ => None
       end).

(** ** Properties *)

Section Properties.

Context {FL : PyFloat}.
Variable env : Env.

Lemma get_instance_state_returns (self : EC2Manager) (id : string) (h : history)
    (attrs : instance_attrs) :
  let load := InstanceLoad {| resource_of := ec2_res self; instance_id_of := id |} in
  sdk env _ h load = Returns attrs ->
  _get_instance_state env self id h = (Returns (attr_state attrs), Ev load (Returns attrs) :: h).
Proof.
  intros load Hload.
  unfold _get_instance_state, bind, try_except, perform, ret.
  fold load. rewrite Hload. reflexivity.
Qed.

Lemma state_in_cons (state : option string) (name : string) (names : list string) :
  state_in state (name :: names) = state_is state name || state_in state names.
Proof.
  destruct state as [s|]; simpl; [|reflexivity].
  now rewrite orb_false_r.
Qed.

Lemma state_in_nil (state : option string) : state_in state [] = false.
Proof. now destruct state. Qed.

Ltac run_lifecycle Hload :=
  unfold stop_instance, start_instance, terminate_instance, bind;
  rewrite (get_instance_state_returns _ _ _ _ Hload).

(** C2: an instance already in the target state of a lifecycle operation is
    reported in that state with an "Already ..." message after the state read
    alone; one in the matching transitional state makes the operation wait on
    the waiter of the target state, with no request that changes the
    instance, and when the wait returns the result is the same. *)
Theorem lifecycle_already_settled (self : EC2Manager) (id : string) (h : history)
    (attrs : instance_attrs) :
  let load := InstanceLoad {| resource_of := ec2_res self; instance_id_of := id |} in
  let h1 := Ev load (Returns attrs) :: h in
  let wait := fun name => WaiterWait (get_waiter (ec2_client self) name) [id] in
  let waited := fun name => Ev (wait name) (sdk env _ h1 (wait name)) :: h1 in
  let settled := fun state message =>
    {| lr_InstanceId := id; lr_State := Some state; lr_Message := Some message |} in
  sdk env _ h load = Returns attrs ->
  (attr_state attrs = Some "stopped" ->
   stop_instance env self id h = (Returns (settled "stopped" "Already stopped"), h1)) /\
  (attr_state attrs = Some "stopping" ->
   snd (stop_instance env self id h) = waited "instance_stopped" /\
   (sdk env _ h1 (wait "instance_stopped") = Returns tt ->
    fst (stop_instance env self id h) = Returns (settled "stopped" "Already stopped"))) /\
  (attr_state attrs = Some "running" ->
   start_instance env self id h = (Returns (settled "running" "Already running"), h1)) /\
  (attr_state attrs = Some "pending" ->
   snd (start_instance env self id h) = waited "instance_running" /\
   (sdk env _ h1 (wait "instance_running") = Returns tt ->
    fst (start_instance env self id h) = Returns (settled "running" "Already running"))) /\
  (attr_state attrs = Some "terminated" ->
   terminate_instance env self id h =
     (Returns (settled "terminated" "Already terminated"), h1)) /\
  (attr_state attrs = Some "shutting-down" ->
   snd (terminate_instance env self id h) = waited "instance_terminated" /\
   (sdk env _ h1 (wait "instance_terminated") = Returns tt ->
    fst (terminate_instance env self id h) =
      Returns (settled "terminated" "Already terminated"))).
Proof.
  intros load h1 wait waited settled Hload.
  repeat match goal with |- _ /\ _ => split end; intros Hstate.
  all: run_lifecycle Hload; rewrite Hstate.
  all: cbn [state_in state_is existsb String.eqb Ascii.eqb Bool.eqb orb negb].
  all: unfold perform, ret; fold load h1.
  all: try reflexivity.
  all: unfold waited, wait, get_waiter; split;
    [now destruct (sdk env unit h1 _) | intros Hwait; now rewrite Hwait].
Qed.

(** C1, as the code has it: [stop_instance] and [start_instance] answer an
    instance whose state is none of the target, transitional and source states
    of their edge with that state unchanged and a "Not in ... state" message,
    after the state read alone.  [terminate_instance] has no such gate: in
    every state but "shutting-down" and "terminated" it submits the terminate
    request. *)
Theorem lifecycle_incompatible_state (self : EC2Manager) (id : string) (h : history)
    (attrs : instance_attrs) :
  let load := InstanceLoad {| resource_of := ec2_res self; instance_id_of := id |} in
  let h1 := Ev load (Returns attrs) :: h in
  let terminate := TerminateInstances (ec2_client self) [id] in
  let refused := fun message =>
    {| lr_InstanceId := id; lr_State := attr_state attrs; lr_Message := Some message |} in
  sdk env _ h load = Returns attrs ->
  (state_in (attr_state attrs) ["stopped"; "stopping"; "running"] = false ->
   stop_instance env self id h = (Returns (refused "Not in running state"), h1)) /\
  (state_in (attr_state attrs) ["running"; "pending"; "stopped"] = false ->
   start_instance env self id h = (Returns (refused "Not in stopped state"), h1)) /\
  (state_in (attr_state attrs) ["shutting-down"; "terminated"] = false ->
   exists later,
     snd (terminate_instance env self id h) =
       (later ++ Ev terminate (sdk env _ h1 terminate) :: h1)%list).
Proof.
  intros load h1 terminate refused Hload.
  repeat match goal with |- _ /\ _ => split end; intros Hstate.
  - run_lifecycle Hload.
    rewrite !state_in_cons in Hstate.
    apply orb_false_elim in Hstate as [Hstopped Hstate].
    apply orb_false_elim in Hstate as [Hstopping Hstate].
    apply orb_false_elim in Hstate as [Hrunning _].
    rewrite !state_in_cons, state_in_nil, Hstopped, Hstopping, Hrunning. reflexivity.
  - run_lifecycle Hload.
    rewrite !state_in_cons in Hstate.
    apply orb_false_elim in Hstate as [Hrunning Hstate].
    apply orb_false_elim in Hstate as [Hpending Hstate].
    apply orb_false_elim in Hstate as [Hstopped _].
    rewrite !state_in_cons, state_in_nil, Hrunning, Hpending, Hstopped. reflexivity.
  - run_lifecycle Hload. rewrite Hstate.
    unfold try_except, bind, perform, ret, raise. fold load h1 terminate.
    destruct (sdk env unit h1 terminate) as [[]|e].
    + match goal with
      | |- context [Ev ?w (sdk env unit ?h2 ?w)] =>
          exists [Ev w (sdk env unit h2 w)]; destruct (sdk env unit h2 w) as [[]|e]
      end.
      * reflexivity.
      * now destruct e.
    + exists []. now destruct e.
Qed.

(** The events a computation added to [h], when its history is a literal
    list ending in [h]. *)
Ltac events_since l h :=
  match l with
  | h => constr:(@nil event)
  | ?e :: ?rest => let r := events_since rest h in constr:(e :: r)
  end.

Ltac give_new_events :=
  match goal with
  | |- exists new, ?l = (new ++ ?h)%list /\ _ =>
      let n := events_since l h in exists n; split; [reflexivity|]
  end.

Lemma init_body_constructs_only (region : option string) (h : history) :
  exists new,
    snd (init_body env region h) = (new ++ h)%list /\ forallb construction new = true.
Proof.
  unfold init_body, new_session, session_client, session_resource, bind, perform, ret.
  destruct (str_truthy _).
  all: repeat match goal with
         | |- context [match sdk env ?R ?h0 ?c with _ => _ end] =>
             destruct (sdk env R h0 c) as [[]|?]
         end.
  all: cbn [snd]; give_new_events; reflexivity.
Qed.

(** C9: when the construction of the manager runs into missing or partial
    credentials, whatever operation was to be called on the manager, the
    outcome is the AWSAuthError of [__init__]; the operation is never
    started, and the history holds nothing beyond the session and client
    constructions. *)
Theorem missing_credentials_raise_auth_error (A : Type) (region : option string)
    (operation : EC2Manager -> M A) (h : history) (e : exn) :
  credentials_error e = true ->
  fst (init_body env region h) = Raises e ->
  with_manager env region operation h =
    (Raises (AWSAuthError "AWS credentials not found. Use IAM roles or SSO profiles."),
     snd (init_body env region h)) /\
  exists new,
    snd (with_manager env region operation h) = (new ++ h)%list /\
    forallb construction new = true.
Proof.
  intros He Hbody.
  assert (Hrun : with_manager env region operation h =
                 (Raises (AWSAuthError "AWS credentials not found. Use IAM roles or SSO profiles."),
                  snd (init_body env region h))).
  { unfold with_manager, __init__, bind, try_except.
    destruct (init_body env region h) as [o h']. cbn [fst snd] in *. subst o.
    destruct e; try discriminate He; reflexivity. }
  split; [exact Hrun|].
  rewrite Hrun. cbn [snd]. apply init_body_constructs_only.
Qed.

(** *** create_instance *)

Ltac give_later_events :=
  match goal with
  | |- exists later, ?l = (later ++ ?base)%list =>
      let n := events_since l base in exists n; reflexivity
  | |- exists later, ?l = (later ++ ?base)%list /\ _ =>
      let n := events_since l base in exists n; split; [reflexivity|]
  end.

(** Once the request is assembled it is submitted, right after the token is
    drawn; nothing submitted follows it. *)
Lemma create_instance_submits (self : EC2Manager) (config : pyval) (h : history)
    (params : run_params) :
  let h1 := Ev Uuid4 (Returns (uuid4 env h)) :: h in
  let run := RunInstances (ec2_client self) params in
  assembled_request env config (uuid4 env h) = Returns params ->
  exists later,
    snd (create_instance env self config h) =
      (later ++ Ev run (sdk env _ h1 run) :: h1)%list /\
    tokens_submitted later = [].
Proof.
  intros h1 run Hreq.
  unfold assembled_request in Hreq.
  unfold create_instance, bind, lift, generate_client_token, try_except, perform, raise, ret.
  destruct (py_get config "instance" _) as [instance_cfg|]; [|discriminate].
  destruct (py_get config "network" _) as [network_cfg|]; [|discriminate].
  destruct (py_get config "user_data" _) as [user_data|]; [|discriminate].
  destruct (py_get config "tags" _) as [tags|]; [|discriminate].
  rewrite Hreq. fold h1 run.
  destruct (sdk env run_response h1 run) as [resp|e].
  - destruct (or_empty (resp_Instances resp)) as [|first rest].
    + cbn [snd]. give_later_events. reflexivity.
    + destruct (launched_InstanceId first) as [i|].
      * repeat match goal with
          | |- context [match sdk env ?R ?h0 ?c with _ => _ end] =>
              destruct (sdk env R h0 c)
          end; cbn [snd]; give_later_events; reflexivity.
      * cbn [snd]. give_later_events. reflexivity.
  - destruct e; cbn [snd]; give_later_events; reflexivity.
Qed.


(** C4: when the provider answers the run request with no instance (the
    list empty or absent), [create_instance] raises
    OperationError("No instance created.") and nothing else: the first element
    of the list is never read. *)
Theorem create_instance_zero_instances (self : EC2Manager) (config : pyval) (h : history)
    (params : run_params) (resp : run_response) :
  let h1 := Ev Uuid4 (Returns (uuid4 env h)) :: h in
  let run := RunInstances (ec2_client self) params in
  assembled_request env config (uuid4 env h) = Returns params ->
  sdk env _ h1 run = Returns resp ->
  or_empty (resp_Instances resp) = [] ->
  create_instance env self config h =
    (Raises (OperationError "No instance created."), Ev run (Returns resp) :: h1).
Proof.
  intros h1 run Hreq Hrun Hempty.
  unfold assembled_request in Hreq.
  unfold create_instance, bind, lift, generate_client_token, try_except, perform, raise, ret.
  destruct (py_get config "instance" _) as [instance_cfg|]; [|discriminate].
  destruct (py_get config "network" _) as [network_cfg|]; [|discriminate].
  destruct (py_get config "user_data" _) as [user_data|]; [|discriminate].
  destruct (py_get config "tags" _) as [tags|]; [|discriminate].
  rewrite Hreq. fold h1 run. rewrite Hrun, Hempty. reflexivity.
Qed.

Lemma run_request_params_fields (instance_cfg : list (string * pyval))
    (network_cfg user_data tags : pyval) (token : string) (params : run_params) :
  run_request_params env (PDict instance_cfg) network_cfg user_data tags token = Returns params ->
  rp_ClientToken params = token /\
  py_get (PDict instance_cfg) "ImageId" PNone = Returns (rp_ImageId params) /\
  py_get (PDict instance_cfg) "InstanceType" PNone = Returns (rp_InstanceType params) /\
  (dict_lookup "MinCount" instance_cfg = None -> rp_MinCount params = 1%Z) /\
  (dict_lookup "MaxCount" instance_cfg = None -> rp_MaxCount params = 1%Z).
Proof.
  unfold run_request_params, and_then, py_get.
  destruct (dict_lookup "MinCount" instance_cfg) as [min|] eqn:Hmin;
    destruct (dict_lookup "MaxCount" instance_cfg) as [max|] eqn:Hmax;
    cbn [py_int]; intros Hreq.
  all: repeat match type of Hreq with
         | context [match ?x with _ => _ end] => destruct x; try discriminate Hreq
         end.
  all: injection Hreq as <-; cbn; repeat split; intros; congruence.
Qed.

Lemma assembled_request_token (config : pyval) (token : string) (params : run_params) :
  assembled_request env config token = Returns params -> rp_ClientToken params = token.
Proof.
  unfold assembled_request, run_request_params, and_then. intros Hreq.
  repeat match type of Hreq with
         | context [match ?x with _ => _ end] => destruct x; try discriminate Hreq
         end.
  all: now injection Hreq as <-.
Qed.



(** C10: when the instance section has no MinCount (MaxCount), the request
    that [create_instance] submits asks for MinCount (MaxCount) 1; the
    loader does not supply the default, it hands the document over as
    read. *)
Theorem create_instance_defaults_counts (self : EC2Manager) (config : pyval)
    (instance_cfg : list (string * pyval)) (h : history) (params : run_params) :
  let h1 := Ev Uuid4 (Returns (uuid4 env h)) :: h in
  let run := RunInstances (ec2_client self) params in
  py_get config "instance" (PDict []) = Returns (PDict instance_cfg) ->
  assembled_request env config (uuid4 env h) = Returns params ->
  (exists later,
     snd (create_instance env self config h) =
       (later ++ Ev run (sdk env _ h1 run) :: h1)%list) /\
  (dict_lookup "MinCount" instance_cfg = None -> rp_MinCount params = 1%Z) /\
  (dict_lookup "MaxCount" instance_cfg = None -> rp_MaxCount params = 1%Z) /\
  (forall filepath h0,
     fst (load_config env filepath h0) = Returns config ->
     sdk env _ h0 (ReadYaml filepath) = Returns config).
Proof.
  intros h1 run Hsection Hreq. split; [|split; [|split]].
  - destruct (create_instance_submits self config h params Hreq) as [later [Hlater _]].
    now exists later.
  - unfold assembled_request in Hreq. rewrite Hsection in Hreq.
    repeat match type of Hreq with
           | context [match ?x with _ => _ end] => destruct x; try discriminate Hreq
           end.
    now apply run_request_params_fields in Hreq as (_ & _ & _ & Hmin & _).
  - unfold assembled_request in Hreq. rewrite Hsection in Hreq.
    repeat match type of Hreq with
           | context [match ?x with _ => _ end] => destruct x; try discriminate Hreq
           end.
    now apply run_request_params_fields in Hreq as (_ & _ & _ & _ & Hmax).
  - intros filepath h0. unfold load_config, bind, perform, ret, raise.
    destruct (sdk env pyval h0 (ReadYaml filepath)) as [loaded|e]; [|discriminate].
    destruct loaded as [|b|n|s|items|entries]; cbn [truthy].
    + discriminate.
    + now destruct b.
    + now destruct (negb (n =? 0)%Z).
    + now destruct (negb (s =? "")).
    + now destruct items.
    + destruct entries as [|entry entries]; [discriminate|].
      destruct (dict_lookup "instance" (entry :: entries)) as [[]|]; cbn; congruence.
Qed.

Lemma token_drawn_in (later : history) (e : event) (t : string) (h : history) :
  In t (tokens_drawn (later ++ e :: Ev Uuid4 (Returns t) :: h)%list).
Proof.
  unfold tokens_drawn. rewrite flat_map_app. apply in_or_app. right.
  cbn [flat_map]. apply in_or_app. right. now left.
Qed.

(** C5: every invocation on a mapping opens by drawing a value from
    [uuid4]; whenever its request can be assembled, the run request is
    submitted next and carries that value, not anything of the
    configuration, as its ClientToken, and it is the only run request of the
    invocation; and as long as [uuid4] never repeats a value it has returned,
    the tokens of two invocations differ, whatever happens in between. *)
Theorem create_instance_fresh_client_token (self1 self2 : EC2Manager) (config1 config2 : pyval)
    (h mid : history) (params1 params2 : run_params) :
  let t1 := uuid4 env h in
  let drawn1 := Ev Uuid4 (Returns t1) :: h in
  let run1 := RunInstances (ec2_client self1) params1 in
  let h1 := snd (create_instance env self1 config1 h) in
  let t2 := uuid4 env (mid ++ h1)%list in
  let drawn2 := Ev Uuid4 (Returns t2) :: (mid ++ h1)%list in
  let run2 := RunInstances (ec2_client self2) params2 in
  let h2 := snd (create_instance env self2 config2 (mid ++ h1)%list) in
  (forall h0, ~ In (uuid4 env h0) (tokens_drawn h0)) ->
  assembled_request env config1 t1 = Returns params1 ->
  assembled_request env config2 t2 = Returns params2 ->
  (exists later1,
     h1 = (later1 ++ Ev run1 (sdk env _ drawn1 run1) :: drawn1)%list /\
     tokens_submitted later1 = []) /\
  (exists later2,
     h2 = (later2 ++ Ev run2 (sdk env _ drawn2 run2) :: drawn2)%list /\
     tokens_submitted later2 = []) /\
  rp_ClientToken params1 = t1 /\
  rp_ClientToken params2 = t2 /\
  t1 <> t2 /\
  (forall self entries h0,
     exists rest,
       snd (create_instance env self (PDict entries) h0) =
         (rest ++ [Ev Uuid4 (Returns (uuid4 env h0))] ++ h0)%list).
Proof.
  intros t1 drawn1 run1 h1 t2 drawn2 run2 h2 Hfresh Hreq1 Hreq2.
  destruct (create_instance_submits self1 config1 h params1 Hreq1) as [later1 [Hlater1 Hnone1]].
  destruct (create_instance_submits self2 config2 (mid ++ h1)%list params2 Hreq2)
    as [later2 [Hlater2 Hnone2]].
  split; [now exists later1|]. split; [now exists later2|].
  split; [now apply assembled_request_token in Hreq1|].
  split; [now apply assembled_request_token in Hreq2|].
  split.
  - intros Hsame. apply (Hfresh (mid ++ h1)%list). fold t2. rewrite <- Hsame.
    unfold tokens_drawn. rewrite flat_map_app. apply in_or_app. right.
    fold (tokens_drawn h1). unfold h1. rewrite Hlater1. apply token_drawn_in.
  - intros self entries h0.
    destruct (assembled_request env (PDict entries) (uuid4 env h0)) as [params|e] eqn:Hreq.
    + destruct (create_instance_submits self (PDict entries) h0 params Hreq)
        as [later [Hlater _]].
      exists (later ++ [Ev (RunInstances (ec2_client self) params)
                           (sdk env _ (Ev Uuid4 (Returns (uuid4 env h0)) :: h0)
                              (RunInstances (ec2_client self) params))])%list.
      rewrite Hlater, <- app_assoc. reflexivity.
    + exists []. unfold assembled_request in Hreq. cbn [py_get] in Hreq.
      unfold create_instance, bind, lift, generate_client_token. cbn [py_get].
      rewrite Hreq. reflexivity.
Qed.

(** C8, as the code has it: a document that is not a mapping with a mapping
    under "instance" makes [load_config] raise ValueError, never ConfigError,
    with the file read as the only event. *)
Theorem load_config_raises_value_error (filepath : string) (h : history) (loaded : pyval) :
  sdk env _ h (ReadYaml filepath) = Returns loaded ->
  has_instance_section loaded = false ->
  exists message,
    load_config env filepath h =
      (Raises (ValueError message), Ev (ReadYaml filepath) (Returns loaded) :: h).
Proof.
  intros Hread Hbad.
  unfold load_config, bind, perform, raise, ret. rewrite Hread.
  destruct loaded as [|b|n|s|items|entries]; cbn [truthy].
  - eexists. reflexivity.
  - destruct b; eexists; reflexivity.
  - destruct (negb (n =? 0)%Z); eexists; reflexivity.
  - destruct (negb (s =? "")); eexists; reflexivity.
  - destruct items; eexists; reflexivity.
  - destruct entries as [|entry entries]; [eexists; reflexivity|].
    unfold has_instance_section in Hbad.
    destruct (dict_lookup "instance" (entry :: entries)) as [[]|];
      try discriminate Hbad; eexists; reflexivity.
Qed.

(** *** Loops *)

Lemma for_accumulates {X S Y : Type} (proj : S -> list Y) (g : X -> list Y)
    (body : X -> S -> M S) :
  (forall x acc h,
     exists acc' h', body x acc h = (Returns acc', h') /\ proj acc' = (proj acc ++ g x)%list) ->
  forall xs acc h,
    exists acc' h',
      for_ xs body acc h = (Returns acc', h') /\ proj acc' = (proj acc ++ flat_map g xs)%list.
Proof.
  intros Hbody xs. induction xs as [|x xs IH]; intros acc h; cbn [for_ flat_map].
  - exists acc, h. split; [reflexivity|]. now rewrite app_nil_r.
  - unfold bind. destruct (Hbody x acc h) as (acc1 & h1 & Hrun & Hproj). rewrite Hrun.
    destruct (IH acc1 h1) as (acc2 & h2 & Hrest & Hproj2).
    exists acc2, h2. split; [exact Hrest|].
    now rewrite Hproj2, Hproj, app_assoc.
Qed.

Lemma for_pages_accumulates {P S Y : Type} (proj : S -> list Y) (g : P -> list Y)
    (body : P -> S -> M S) (page_it : paged P) :
  failure page_it = None ->
  (forall x acc h,
     exists acc' h', body x acc h = (Returns acc', h') /\ proj acc' = (proj acc ++ g x)%list) ->
  forall acc h,
    exists acc' h',
      for_pages page_it body acc h = (Returns acc', h') /\
      proj acc' = (proj acc ++ flat_map g (pages page_it))%list.
Proof.
  intros Hend Hbody acc h. unfold for_pages, bind.
  destruct (for_accumulates proj g body Hbody (pages page_it) acc h)
    as (acc1 & h1 & Hrun & Hproj).
  rewrite Hrun, Hend. now exists acc1, h1.
Qed.

Lemma flat_map_flat_map {X Y Z : Type} (f : X -> list Y) (g : Y -> list Z) (xs : list X) :
  flat_map g (flat_map f xs) = flat_map (fun x => flat_map g (f x)) xs.
Proof.
  induction xs as [|x xs IH]; cbn; [reflexivity|].
  now rewrite flat_map_app, IH.
Qed.

Lemma flat_map_singleton {X Y : Type} (f : X -> Y) (xs : list X) :
  flat_map (fun x => [f x]) xs = map f xs.
Proof.
  induction xs as [|x xs IH]; cbn; [reflexivity|]. now rewrite IH.
Qed.

Lemma flat_map_filter_map {X Y : Type} (keep : X -> bool) (f : X -> Y) (xs : list X) :
  flat_map (fun x => if keep x then [f x] else []) xs = map f (filter keep xs).
Proof.
  induction xs as [|x xs IH]; cbn; [reflexivity|].
  rewrite IH. now destruct (keep x).
Qed.

(** *** list_volumes *)

(** C7: the records of [list_volumes] are those of the volumes the pages
    hold, one for one and in page order, and each record's AttachedInstances
    is the list of the InstanceId entries of that volume's attachments, in
    the order of the attachments. *)
Theorem list_volumes_attached_instances (self : EC2Manager) (status_filter : option string)
    (h : history) (page_it : paged volume_page) :
  let Filters :=
    match status_filter with
    | Some status =>
        if String.eqb status "" then None
        else Some [ {| filter_Name := "status"; filter_Values := [status] |} ]
    | None => None
    end in
  let get_paginator := GetPaginator (ec2_client self) "describe_volumes" in
  let paginate := Paginate (ec2_client self) "describe_volumes" Filters in
  let h1 := Ev get_paginator (Returns tt) :: h in
  let h2 := Ev paginate (Returns tt) :: h1 in
  sdk env _ h get_paginator = Returns tt ->
  sdk env _ h1 paginate = Returns tt ->
  sdk env _ h2 (IterVolumePages (ec2_client self) Filters) = Returns page_it ->
  failure page_it = None ->
  exists results,
    fst (list_volumes env self status_filter h) = Returns results /\
    Forall2
      (fun vol record =>
         vr_VolumeId record = vol_VolumeId vol /\
         vr_AttachedInstances record = map att_InstanceId (or_empty (vol_Attachments vol)))
      (volumes_of (pages page_it)) results.
Proof.
  intros Filters get_paginator paginate h1 h2.
  subst Filters get_paginator paginate h1 h2. intros Hget Hpaginate Hiter Hend.
  set (record := fun vol =>
         {| vr_VolumeId := vol_VolumeId vol;
            vr_SizeGiB := vol_Size vol;
            vr_State := vol_State vol;
            vr_VolumeType := vol_VolumeType vol;
            vr_Iops := vol_Iops vol;
            vr_Throughput := vol_Throughput vol;
            vr_AvailabilityZone := vol_AvailabilityZone vol;
            vr_AttachedInstances := map att_InstanceId (or_empty (vol_Attachments vol)) |}).
  assert (Hrun : exists h3,
            list_volumes env self status_filter h =
              for_pages page_it
                (fun page results =>
                   for_ (or_empty (page_Volumes page))
                     (fun vol results => ret (results ++ [record vol])%list) results)
                [] h3).
  { unfold list_volumes, bind, try_except, perform.
    destruct status_filter as [status|]; [destruct (String.eqb status "")|];
      cbv zeta; rewrite Hget; cbv beta iota; rewrite Hpaginate; cbv beta iota;
      rewrite Hiter; eexists; reflexivity. }
  destruct Hrun as [h3 Hrun]. rewrite Hrun. clear Hrun.
  assert (Hbody : forall page acc h0,
            exists acc' h',
              for_ (or_empty (page_Volumes page))
                (fun vol results => ret (results ++ [record vol])%list) acc h0 =
                (Returns acc', h') /\
              acc' = (acc ++ map record (or_empty (page_Volumes page)))%list).
  { intros page acc h0.
    destruct (for_accumulates (fun results => results) (fun vol => [record vol])
                (fun vol results => ret (results ++ [record vol])%list)
                (fun vol results h5 =>
                   ex_intro _ (results ++ [record vol])%list
                     (ex_intro _ h5 (conj eq_refl eq_refl)))
                (or_empty (page_Volumes page)) acc h0) as (acc1 & h5 & Hrun & Hacc).
    exists acc1, h5. split; [exact Hrun|]. now rewrite Hacc, flat_map_singleton. }
  destruct (for_pages_accumulates (fun results => results)
              (fun page => map record (or_empty (page_Volumes page)))
              (fun page results =>
                 for_ (or_empty (page_Volumes page))
                   (fun vol results => ret (results ++ [record vol])%list) results)
              page_it Hend Hbody [] h3) as (results & h4 & Hrun & Hresults).
  rewrite Hrun. exists results. split; [reflexivity|].
  cbn [app] in Hresults. rewrite Hresults. unfold volumes_of.
  clear. induction (pages page_it) as [|page rest IH]; cbn [flat_map]; [constructor|].
  apply Forall2_app; [|exact IH].
  induction (or_empty (page_Volumes page)) as [|vol vols IHv]; cbn [map]; constructor;
    [now split | exact IHv].
Qed.

(** *** find_wasteful_resources *)

Lemma for_preserves {X S Y : Type} (proj : S -> Y) (body : X -> S -> M S) :
  (forall x acc h, exists acc' h', body x acc h = (Returns acc', h') /\ proj acc' = proj acc) ->
  forall xs acc h,
    exists acc' h', for_ xs body acc h = (Returns acc', h') /\ proj acc' = proj acc.
Proof.
  intros Hbody xs. induction xs as [|x xs IH]; intros acc h; cbn [for_].
  - now exists acc, h.
  - unfold bind. destruct (Hbody x acc h) as (acc1 & h1 & Hrun & Hproj). rewrite Hrun.
    destruct (IH acc1 h1) as (acc2 & h2 & Hrest & Hproj2).
    exists acc2, h2. split; [exact Hrest|]. congruence.
Qed.

Lemma for_pages_preserves {P S Y : Type} (proj : S -> Y) (body : P -> S -> M S)
    (page_it : paged P) :
  failure page_it = None ->
  (forall x acc h, exists acc' h', body x acc h = (Returns acc', h') /\ proj acc' = proj acc) ->
  forall acc h,
    exists acc' h', for_pages page_it body acc h = (Returns acc', h') /\ proj acc' = proj acc.
Proof.
  intros Hend Hbody acc h. unfold for_pages, bind.
  destruct (for_preserves proj body Hbody (pages page_it) acc h) as (acc1 & h1 & Hrun & Hproj).
  rewrite Hrun, Hend. now exists acc1, h1.
Qed.

Lemma average_cpu_served (inv : inventory) (self : EC2Manager) (instance_id : option string)
    (region : string) (h : history) :
  serves env inv ->
  exists h',
    _average_cpu_utilization env self instance_id region 14 h =
      (Returns match or_empty (datapoints_of inv region instance_id) with
               | [] => None
               | datapoints => Some (mean_of_averages datapoints)
               end, h').
Proof.
  intros (Hsession & Hclient & _ & _ & _ & _ & Hmetrics).
  unfold _average_cpu_utilization, datetime_utcnow, new_session, session_client,
    bind, perform, ret.
  destruct (str_truthy _); rewrite Hsession, Hclient; cbv beta iota.
  all: match goal with
       | |- context [sdk env metric_response ?h0 (GetMetricStatistics ?c ?req)] =>
           rewrite (Hmetrics h0 c req region eq_refl)
       end.
  all: cbn [resp_Datapoints dimension_value mr_Dimensions].
  all: destruct (or_empty (datapoints_of inv region instance_id)); eexists; reflexivity.
Qed.

Lemma mean_of_averages_is_unweighted_mean (datapoints : list datapoint) :
  mean_of_averages datapoints = unweighted_mean (map bucket_average datapoints).
Proof.
  unfold mean_of_averages, unweighted_mean. rewrite length_map. reflexivity.
Qed.

(** C6: in the report over the given regions the idle list holds, region by
    region and in page order, one finding for each instance that is running,
    has at least one datapoint and whose simple unweighted mean of bucket
    averages (their sum divided by their number) is strictly below the
    threshold, and nothing else: a running instance with no datapoint is
    passed over without an error, and so is one whose mean is the threshold
    itself, [<] being irreflexive. *)
Theorem find_wasteful_resources_flags_idle (inv : inventory) (self : EC2Manager)
    (region : string) (regions : list string) (threshold : float) (h : history) :
  let datapoints := fun region inst =>
    or_empty (datapoints_of inv region (inst_InstanceId inst)) in
  let flagged := fun region inst =>
    state_is (inst_state_name inst) "running" &&
    flags_idle threshold (datapoints region inst) in
  let finding := fun region inst =>
    {| ii_Region := region;
       ii_InstanceId := inst_InstanceId inst;
       ii_AverageCPU14d :=
         float_round2 (unweighted_mean (map bucket_average (datapoints region inst)));
       ii_InstanceType := inst_InstanceType inst |} in
  serves env inv ->
  (exists report h',
     find_wasteful_resources env self (Some (region :: regions)) threshold h =
       (Returns report, h') /\
     idle_instances report =
       flat_map (fun region =>
                   map (finding region)
                     (filter (flagged region) (instances_of (reservations_in inv region))))
         (region :: regions)) /\
  ((forall x, float_lt x x = false) ->
   forall region inst,
     unweighted_mean (map bucket_average (datapoints region inst)) = threshold ->
     flagged region inst = false) /\
  (forall region inst, datapoints region inst = [] -> flagged region inst = false).
Proof.
  intros datapoints flagged finding Hserves.
  split; [|split].
  2: { intros Hirreflexive r inst Hmean. unfold flagged, flags_idle.
       destruct (datapoints r inst); [apply andb_false_r|].
       rewrite Hmean, Hirreflexive. apply andb_false_r. }
  2: { intros r inst Hnone. unfold flagged, flags_idle. rewrite Hnone. apply andb_false_r. }
  pose proof Hserves as (Hsession & Hclient & Hget & Hpaginate & Hvolumes & Hinstances & _).
  unfold find_wasteful_resources.
  change (bind (ret (region :: regions)) ?k h) with (k (region :: regions) h).
  cbv beta.
  match goal with
  | |- context [for_ (region :: regions) ?body ?init] =>
      set (region_body := body);
      change (exists report h',
                for_ (region :: regions) region_body init h = (Returns report, h') /\
                idle_instances report =
                  (idle_instances init ++
                   flat_map (fun region =>
                               map (finding region)
                                 (filter (flagged region)
                                    (instances_of (reservations_in inv region))))
                     (region :: regions))%list)
  end.
  apply for_accumulates. clear h. intros r acc h. subst region_body. cbv beta.
  unfold new_session, session_client, bind, perform, ret.
  destruct (str_truthy _); rewrite Hsession; cbv beta iota; rewrite Hclient; cbv beta iota;
    rewrite Hget; cbv beta iota; rewrite Hpaginate; cbv beta iota.
  all: match goal with
       | |- context [sdk env (paged volume_page) ?h0 (IterVolumePages ?c ?F)] =>
           destruct (Hvolumes h0 c F) as [volume_pages Hv]; rewrite Hv
       end.
  all: match goal with
       | |- context [for_pages ?page_it ?body ?acc0 ?h0] =>
           assert (Hbody : forall x acc1 h1,
                     exists acc' h',
                       body x acc1 h1 = (Returns acc', h') /\
                       idle_instances acc' = idle_instances acc1)
       end.
  all: try (intros page acc1 h1; apply for_preserves; intros vol acc2 h2;
            eexists; eexists; split; reflexivity).
  all: match goal with
       | |- context [for_pages ?page_it ?body ?acc0 ?h0] =>
           destruct (for_pages_preserves idle_instances body page_it eq_refl Hbody acc0 h0)
             as (acc1 & h1 & Hrun & Hidle)
       end.
  all: rewrite Hrun; clear Hrun Hbody.
  all: rewrite Hget; cbv beta iota; rewrite Hpaginate; cbv beta iota.
  all: match goal with
       | |- context [sdk env (paged reservation_page) ?h0 (IterInstancePages ?c None)] =>
           rewrite (Hinstances h0 c r eq_refl)
       end.
  all: set (g_inst := fun inst => if flagged r inst then [finding r inst] else []).
  all: set (g_res := fun reservation => flat_map g_inst (or_empty (res_Instances reservation))).
  all: set (g_page := fun page => flat_map g_res (or_empty (page_Reservations page))).
  all: match goal with
       | |- context [for_pages ?page_it ?body ?acc0 ?h0] =>
           assert (Hbody : forall page acc3 h3,
                     exists acc' h',
                       body page acc3 h3 = (Returns acc', h') /\
                       idle_instances acc' = (idle_instances acc3 ++ g_page page)%list);
           [ intros page acc3 h3; apply (for_accumulates idle_instances g_res);
             intros reservation acc4 h4; apply (for_accumulates idle_instances g_inst);
             intros inst acc5 h5; unfold g_inst, flagged, finding, datapoints, flags_idle;
             destruct (state_is (inst_state_name inst) "running"); cbn [negb andb];
             [ destruct (average_cpu_served inv self (inst_InstanceId inst) r h5 Hserves)
                 as [h6 Havg];
               rewrite Havg;
               destruct (or_empty (datapoints_of inv r (inst_InstanceId inst))) as [|dp dps];
               [ exists acc5, h6; now rewrite app_nil_r
               | rewrite mean_of_averages_is_unweighted_mean;
                 destruct (float_lt (unweighted_mean (map bucket_average (dp :: dps)))
                             threshold);
                 [ eexists; exists h6; split; reflexivity
                 | exists acc5, h6; now rewrite app_nil_r ] ]
             | exists acc5, h5; now rewrite app_nil_r ]
           | destruct (for_pages_accumulates idle_instances g_page body page_it eq_refl
                         Hbody acc0 h0) as (acc2 & h2 & Hrun & Hfound) ]
       end.
  all: exists acc2, h2; split; [exact Hrun|].
  all: rewrite Hfound, Hidle; f_equal; cbn [pages].
  all: unfold instances_of; rewrite <- flat_map_filter_map.
  all: fold g_inst; rewrite flat_map_flat_map.
  all: apply flat_map_ext; intros page; unfold g_page; rewrite flat_map_flat_map; reflexivity.
Qed.

End Properties.

Lemma lifecycle_already_settled_witness :
  stop_instance (scripted (with_state "stopped")) a_manager "i-1" [] =
    (Returns {| lr_InstanceId := "i-1"; lr_State := Some "stopped";
                lr_Message := Some "Already stopped" |},
     [Ev (InstanceLoad {| resource_of := ec2_res a_manager; instance_id_of := "i-1" |})
         (Returns (attrs_in "stopped"))]).
Proof.
  apply (proj1 (lifecycle_already_settled (scripted (with_state "stopped")) a_manager "i-1" []
                  (attrs_in "stopped") eq_refl)).
  reflexivity.
Defined.

Lemma lifecycle_incompatible_state_witness :
  stop_instance (scripted (with_state "pending")) a_manager "i-1" [] =
    (Returns {| lr_InstanceId := "i-1"; lr_State := Some "pending";
                lr_Message := Some "Not in running state" |},
     [Ev (InstanceLoad {| resource_of := ec2_res a_manager; instance_id_of := "i-1" |})
         (Returns (attrs_in "pending"))]).
Proof.
  apply (proj1 (lifecycle_incompatible_state (scripted (with_state "pending")) a_manager "i-1" []
                  (attrs_in "pending") eq_refl)).
  reflexivity.
Defined.

(** C1 as stated fails for [terminate_instance]: "pending" is neither its
    target, nor its transitional state, nor a source of its edge, and yet the
    terminate request is submitted and the instance reported terminated,
    without a message. *)
Lemma terminate_while_pending_is_submitted :
  let outcome_and_history :=
    terminate_instance (scripted (with_state "pending")) a_manager "i-1" [] in
  state_in (Some "pending") ["terminated"; "shutting-down"; "running"; "stopped"] = false /\
  fst outcome_and_history =
    Returns {| lr_InstanceId := "i-1"; lr_State := Some "terminated"; lr_Message := None |} /\
  existsb mutating (snd outcome_and_history) = true.
Proof.
  repeat split.
Qed.

Lemma missing_credentials_raise_auth_error_witness :
  fst (with_manager (scripted no_credentials) (Some "us-east-1")
         (fun mgr => terminate_instance (scripted no_credentials) mgr "i-1") []) =
    Raises (AWSAuthError "AWS credentials not found. Use IAM roles or SSO profiles.").
Proof.
  pose proof (missing_credentials_raise_auth_error (scripted no_credentials) lifecycle_result
                (Some "us-east-1")
                (fun mgr => terminate_instance (scripted no_credentials) mgr "i-1")
                [] NoCredentialsError eq_refl eq_refl) as [Hrun _].
  rewrite Hrun. reflexivity.
Defined.

Lemma length_append (s1 s2 : string) :
  String.length (s1 ++ s2) = String.length s1 + String.length s2.
Proof.
  induction s1 as [|c s1 IH]; cbn; [reflexivity|]. now rewrite IH.
Qed.

Lemma longer_than_is_longer (tokens : list string) (t : string) :
  In t tokens -> String.length t < String.length (longer_than tokens).
Proof.
  induction tokens as [|t0 tokens IH]; cbn [longer_than In]; [intros []|].
  rewrite length_append. intros [<-|Hin].
  - assert (0 < String.length (longer_than tokens)) by
      (destruct tokens; cbn; [lia|rewrite length_append];
       clear; induction tokens; cbn; [lia|rewrite length_append; lia]).
    lia.
  - specialize (IH Hin). lia.
Qed.

Lemma scripted_uuid4_fresh (sc : script) (h : history) :
  ~ In (uuid4 (scripted sc) h) (tokens_drawn h).
Proof.
  intros Hin. apply longer_than_is_longer in Hin. cbn in Hin. lia.
Qed.

Lemma create_instance_fresh_client_token_witness :
  let env := scripted quiet in
  let h1 := snd (create_instance env a_manager web_server []) in
  tokens_submitted h1 = [uuid4 env []] /\
  tokens_submitted (snd (create_instance env a_manager web_server h1)) =
    [uuid4 env h1; uuid4 env []] /\
  uuid4 env [] <> uuid4 env h1.
Proof.
  intros env h1.
  pose proof (create_instance_fresh_client_token env a_manager a_manager web_server web_server
                [] [] _ _ (scripted_uuid4_fresh quiet) eq_refl eq_refl)
    as (_ & _ & _ & _ & Hdiffer & _).
  split; [reflexivity|]. split; [reflexivity|]. exact Hdiffer.
Defined.

Lemma create_instance_zero_instances_witness :
  fst (create_instance (scripted (launching (Some []))) a_manager (document quiet) []) =
    Raises (OperationError "No instance created.").
Proof.
  rewrite (create_instance_zero_instances (scripted (launching (Some []))) a_manager
             (document quiet) []
             {| rp_ImageId := PNone; rp_InstanceType := PNone;
                rp_MinCount := 1; rp_MaxCount := 1; rp_ClientToken := "u";
                rp_KeyName := None; rp_SubnetId := None; rp_SecurityGroupIds := None;
                rp_UserData := None; rp_TagSpecifications := None |}
             {| resp_Instances := Some [] |} eq_refl eq_refl eq_refl).
  reflexivity.
Defined.

Lemma load_config_raises_value_error_witness :
  exists message,
    load_config (scripted (with_document (PList [PInt 1]))) "instance.yaml" [] =
      (Raises (ValueError message),
       [Ev (ReadYaml "instance.yaml") (Returns (PList [PInt 1]))]).
Proof.
  exact (load_config_raises_value_error (scripted (with_document (PList [PInt 1])))
           "instance.yaml" [] (PList [PInt 1]) eq_refl eq_refl).
Defined.



Lemma create_instance_defaults_counts_witness :
  let params :=
    {| rp_ImageId := PNone; rp_InstanceType := PNone;
       rp_MinCount := 1; rp_MaxCount := 1; rp_ClientToken := "u";
       rp_KeyName := None; rp_SubnetId := None; rp_SecurityGroupIds := None;
       rp_UserData := None; rp_TagSpecifications := None |} in
  let h1 := [Ev Uuid4 (Returns "u")] in
  let run := RunInstances (ec2_client a_manager) params in
  (exists later,
     snd (create_instance (scripted quiet) a_manager (document quiet) []) =
       (later ++ Ev run (sdk (scripted quiet) _ h1 run) :: h1)%list) /\
  (dict_lookup "MinCount" [] = None -> rp_MinCount params = 1%Z) /\
  (dict_lookup "MaxCount" [] = None -> rp_MaxCount params = 1%Z) /\
  (forall filepath h0,
     fst (load_config (scripted quiet) filepath h0) = Returns (document quiet) ->
     sdk (scripted quiet) _ h0 (ReadYaml filepath) = Returns (document quiet)).
Proof.
  exact (create_instance_defaults_counts (scripted quiet) a_manager (document quiet) [] []
           _ eq_refl eq_refl).
Defined.

Lemma list_volumes_attached_instances_witness :
  exists results,
    fst (list_volumes (scripted with_volumes) a_manager (Some "in-use") []) = Returns results /\
    Forall2
      (fun vol record =>
         vr_VolumeId record = vol_VolumeId vol /\
         vr_AttachedInstances record = map att_InstanceId (or_empty (vol_Attachments vol)))
      (volumes_of two_volume_pages) results.
Proof.
  exact (list_volumes_attached_instances (scripted with_volumes) a_manager (Some "in-use") []
           {| pages := two_volume_pages; failure := None |} eq_refl eq_refl eq_refl eq_refl).
Defined.

Lemma scripted_serves (sc : script) :
  credentials sc = true -> serves (scripted sc) (inventory_of sc).
Proof.
  intros Hcredentials. unfold serves. cbn. rewrite Hcredentials.
  repeat split; try reflexivity.
  intros h c Filters. now exists (volume_pages sc).
Qed.

Lemma Qlt_bool_irreflexive (x : Q) : @float_lt rational_floats x x = false.
Proof.
  cbn. apply negb_false_iff. apply Qle_bool_iff. apply Qle_refl.
Qed.

Lemma find_wasteful_resources_flags_idle_witness :
  (exists report,
     fst (find_wasteful_resources (scripted mixed_fleet) a_manager (Some ["us-east-1"]) 5%Q []) =
       Returns report /\
     map ii_InstanceId (idle_instances report) = [Some "i-low"]) /\
  state_is (inst_state_name (an_instance "i-edge" "running")) "running" &&
    flags_idle (10 # 2)%Q [bucket 6; bucket 4] = false /\
  state_is (inst_state_name (an_instance "i-silent" "running")) "running" &&
    flags_idle 5%Q [] = false.
Proof.
  destruct (find_wasteful_resources_flags_idle (scripted mixed_fleet) (inventory_of mixed_fleet)
              a_manager "us-east-1" [] 5%Q [] (scripted_serves mixed_fleet eq_refl))
    as ((report & h' & Hrun & Hidle) & _ & Hnone).
  destruct (find_wasteful_resources_flags_idle (scripted mixed_fleet) (inventory_of mixed_fleet)
              a_manager "us-east-1" [] (10 # 2)%Q [] (scripted_serves mixed_fleet eq_refl))
    as (_ & Hstrict & _).
  split; [|split].
  - exists report. rewrite Hrun. split; [reflexivity|].
    rewrite Hidle. reflexivity.
  - exact (Hstrict Qlt_bool_irreflexive "us-east-1" (an_instance "i-edge" "running") eq_refl).
  - exact (Hnone "us-east-1" (an_instance "i-silent" "running") eq_refl).
Defined.

(** ** Further properties of the operations *)

Section MoreProperties.

Context {FL : PyFloat}.
Variable env : Env.

(** *** The events a computation can add *)

Lemma adds_refl (P : event -> Prop) (h : history) : adds P h h.
Proof. exists []. now split. Qed.

Lemma adds_trans (P : event -> Prop) (h1 h2 h3 : history) :
  adds P h1 h2 -> adds P h2 h3 -> adds P h1 h3.
Proof.
  intros (new1 & -> & H1) (new2 & -> & H2).
  exists (new2 ++ new1)%list. split; [now rewrite app_assoc|].
  apply Forall_app. now split.
Qed.

Lemma adds_cons (P : event -> Prop) (h : history) (e : event) : P e -> adds P h (e :: h).
Proof. intros He. exists [e]. split; [reflexivity|]. now constructor. Qed.

Lemma only_ret {A : Type} (P : event -> Prop) (a : A) : only P (ret a).
Proof. intros h. apply adds_refl. Qed.

Lemma only_raise {A : Type} (P : event -> Prop) (e : exn) : only P (@raise _ A e).
Proof. intros h. apply adds_refl. Qed.

Lemma only_lift {A : Type} (P : event -> Prop) (o : outcome A) : only P (lift o).
Proof. intros h. apply adds_refl. Qed.

Lemma only_perform {R : Type} (P : event -> Prop) (c : call R) :
  (forall o, P (Ev c o)) -> only P (perform env c).
Proof. intros Hc h. unfold perform. cbn [snd]. now apply adds_cons. Qed.

Lemma only_bind {A B : Type} (P : event -> Prop) (m : M A) (k : A -> M B) :
  only P m -> (forall a, only P (k a)) -> only P (bind m k).
Proof.
  intros Hm Hk h. unfold bind. specialize (Hm h).
  destruct (m h) as [[a|e] h1]; cbn [snd] in *; [|exact Hm].
  eapply adds_trans; [exact Hm|apply Hk].
Qed.

Lemma only_try_except {A : Type} (P : event -> Prop) (body : M A) (handler : exn -> M A) :
  only P body -> (forall e, only P (handler e)) -> only P (try_except body handler).
Proof.
  intros Hbody Hhandler h. unfold try_except. specialize (Hbody h).
  destruct (body h) as [[a|e] h1]; cbn [snd] in *; [exact Hbody|].
  eapply adds_trans; [exact Hbody|apply Hhandler].
Qed.

Lemma only_for {X S : Type} (P : event -> Prop) (body : X -> S -> M S) (xs : list X) :
  (forall x acc, only P (body x acc)) -> forall acc, only P (for_ xs body acc).
Proof.
  intros Hbody. induction xs as [|x xs IH]; intros acc; cbn [for_].
  - apply only_ret.
  - apply only_bind; [apply Hbody|exact IH].
Qed.

Lemma only_for_pages {X S : Type} (P : event -> Prop) (body : X -> S -> M S)
    (page_it : paged X) :
  (forall x acc, only P (body x acc)) -> forall acc, only P (for_pages page_it body acc).
Proof.
  intros Hbody acc. unfold for_pages. apply only_bind; [now apply only_for|].
  intros acc'. destruct (failure page_it); [apply only_raise|apply only_ret].
Qed.

Lemma only_generate_client_token (P : event -> Prop) :
  (forall o, P (Ev Uuid4 o)) -> only P (generate_client_token env).
Proof. intros HP h. unfold generate_client_token. cbn [snd]. now apply adds_cons. Qed.

Lemma only_datetime_utcnow (P : event -> Prop) :
  (forall o, P (Ev Utcnow o)) -> only P (datetime_utcnow env).
Proof. intros HP h. unfold datetime_utcnow. cbn [snd]. now apply adds_cons. Qed.

(** Walks through a computation built from the operations above, leaving
    the side conditions on the events performed. *)
Ltac walk :=
  repeat first
    [ apply only_ret
    | apply only_raise
    | apply only_lift
    | apply only_bind; [|intros ?]
    | apply only_try_except; [|intros ?]
    | apply only_for_pages; intros ? ?
    | apply only_for; intros ? ?
    | apply only_perform; intros ?
    | apply only_generate_client_token; intros ?
    | apply only_datetime_utcnow; intros ?
    | match goal with
      | |- only _ (if ?b then _ else _) => destruct b
      | |- only _ (match ?x with _ => _ end) => destruct x
      | |- only _ (let _ := _ in _) => cbv zeta
      end ].

Lemma only_new_session (P : event -> Prop) (region : option string) :
  (forall profile o, P (Ev (SessionNew profile region) o)) -> only P (new_session env region).
Proof. intros HP. unfold new_session. cbv zeta. walk; apply HP. Qed.

Lemma only_session_client (P : event -> Prop) (s : Session) (service : string) :
  (forall o, P (Ev (SessionClient s service) o)) -> only P (session_client env s service).
Proof. intros HP. unfold session_client. walk. apply HP. Qed.

Lemma only_get_instance_state (P : event -> Prop) (self : EC2Manager) (id : string) :
  (forall o, P (Ev (InstanceLoad {| resource_of := ec2_res self; instance_id_of := id |}) o)) ->
  only P (_get_instance_state env self id).
Proof. intros HP. unfold _get_instance_state. walk. apply HP. Qed.

(** *** Lifecycle operations *)

(** X1: from the source state of its edge, a lifecycle operation submits
    its request for the one instance, waits on the waiter of the target
    state, and reports the target state without a message. *)
Theorem lifecycle_transition (self : EC2Manager) (id : string) (h : history)
    (attrs : instance_attrs) :
  let load := InstanceLoad {| resource_of := ec2_res self; instance_id_of := id |} in
  let h1 := Ev load (Returns attrs) :: h in
  let wait := fun name => WaiterWait (get_waiter (ec2_client self) name) [id] in
  let done := fun state =>
    {| lr_InstanceId := id; lr_State := Some state; lr_Message := None |} in
  let accepted := fun (request : call unit) name =>
    sdk env _ h1 request = Returns tt /\
    sdk env _ (Ev request (Returns tt) :: h1) (wait name) = Returns tt in
  let after := fun (request : call unit) name =>
    Ev (wait name) (Returns tt) :: Ev request (Returns tt) :: h1 in
  sdk env _ h load = Returns attrs ->
  (attr_state attrs = Some "running" ->
   accepted (StopInstances (ec2_client self) [id]) "instance_stopped" ->
   stop_instance env self id h =
     (Returns (done "stopped"),
      after (StopInstances (ec2_client self) [id]) "instance_stopped")) /\
  (attr_state attrs = Some "stopped" ->
   accepted (StartInstances (ec2_client self) [id]) "instance_running" ->
   start_instance env self id h =
     (Returns (done "running"),
      after (StartInstances (ec2_client self) [id]) "instance_running")) /\
  (state_in (attr_state attrs) ["shutting-down"; "terminated"] = false ->
   accepted (TerminateInstances (ec2_client self) [id]) "instance_terminated" ->
   terminate_instance env self id h =
     (Returns (done "terminated"),
      after (TerminateInstances (ec2_client self) [id]) "instance_terminated")).
Proof.
  intros load h1 wait done accepted after Hload.
  repeat match goal with |- _ /\ _ => split end; intros Hstate [Hrequest Hwait].
  all: unfold stop_instance, start_instance, terminate_instance, bind;
    rewrite (get_instance_state_returns env _ _ _ _ Hload); rewrite Hstate.
  all: cbn [state_in state_is existsb String.eqb Ascii.eqb Bool.eqb orb negb].
  all: unfold try_except, perform, ret; fold load h1.
  all: rewrite Hrequest; unfold wait, get_waiter in Hwait; unfold get_waiter; rewrite Hwait.
  all: reflexivity.
Qed.

(** X2: when the provider rejects the request of a lifecycle operation with
    a ClientError, the operation raises OperationError with the instance and
    the provider's message, and does not wait. *)
Theorem lifecycle_request_rejected (self : EC2Manager) (id : string) (h : history)
    (attrs : instance_attrs) (msg : string) :
  let load := InstanceLoad {| resource_of := ec2_res self; instance_id_of := id |} in
  let h1 := Ev load (Returns attrs) :: h in
  let rejected := fun (request : call unit) => sdk env _ h1 request = Raises (ClientError msg) in
  let after := fun (request : call unit) => Ev request (Raises (ClientError msg)) :: h1 in
  sdk env _ h load = Returns attrs ->
  (attr_state attrs = Some "running" ->
   rejected (StopInstances (ec2_client self) [id]) ->
   stop_instance env self id h =
     (Raises (OperationError ("Failed to stop instance " ++ id ++ ": " ++ msg)),
      after (StopInstances (ec2_client self) [id]))) /\
  (attr_state attrs = Some "stopped" ->
   rejected (StartInstances (ec2_client self) [id]) ->
   start_instance env self id h =
     (Raises (OperationError ("Failed to start instance " ++ id ++ ": " ++ msg)),
      after (StartInstances (ec2_client self) [id]))) /\
  (state_in (attr_state attrs) ["shutting-down"; "terminated"] = false ->
   rejected (TerminateInstances (ec2_client self) [id]) ->
   terminate_instance env self id h =
     (Raises (OperationError ("Failed to terminate instance " ++ id ++ ": " ++ msg)),
      after (TerminateInstances (ec2_client self) [id]))).
Proof.
  intros load h1 rejected after Hload.
  repeat match goal with |- _ /\ _ => split end; intros Hstate Hrequest.
  all: unfold stop_instance, start_instance, terminate_instance, bind;
    rewrite (get_instance_state_returns env _ _ _ _ Hload); rewrite Hstate.
  all: cbn [state_in state_is existsb String.eqb Ascii.eqb Bool.eqb orb negb].
  all: unfold try_except, perform, ret, raise; fold load h1.
  all: unfold rejected in Hrequest; rewrite Hrequest; reflexivity.
Qed.

(** X3: a wait that gives up (WaiterError) after the request was accepted
    is not translated: the WaiterError itself is what the operation
    raises. *)
Theorem lifecycle_wait_gives_up (self : EC2Manager) (id : string) (h : history)
    (attrs : instance_attrs) (msg : string) :
  let load := InstanceLoad {| resource_of := ec2_res self; instance_id_of := id |} in
  let h1 := Ev load (Returns attrs) :: h in
  let wait := fun name => WaiterWait (get_waiter (ec2_client self) name) [id] in
  let gives_up := fun (request : call unit) name =>
    sdk env _ h1 request = Returns tt /\
    sdk env _ (Ev request (Returns tt) :: h1) (wait name) = Raises (WaiterError msg) in
  sdk env _ h load = Returns attrs ->
  (attr_state attrs = Some "running" ->
   gives_up (StopInstances (ec2_client self) [id]) "instance_stopped" ->
   fst (stop_instance env self id h) = Raises (WaiterError msg)) /\
  (attr_state attrs = Some "stopped" ->
   gives_up (StartInstances (ec2_client self) [id]) "instance_running" ->
   fst (start_instance env self id h) = Raises (WaiterError msg)) /\
  (state_in (attr_state attrs) ["shutting-down"; "terminated"] = false ->
   gives_up (TerminateInstances (ec2_client self) [id]) "instance_terminated" ->
   fst (terminate_instance env self id h) = Raises (WaiterError msg)).
Proof.
  intros load h1 wait gives_up Hload.
  repeat match goal with |- _ /\ _ => split end; intros Hstate [Hrequest Hwait].
  all: unfold stop_instance, start_instance, terminate_instance, bind;
    rewrite (get_instance_state_returns env _ _ _ _ Hload); rewrite Hstate.
  all: cbn [state_in state_is existsb String.eqb Ascii.eqb Bool.eqb orb negb].
  all: unfold try_except, perform, ret, raise; fold load h1.
  all: rewrite Hrequest; unfold wait, get_waiter in Hwait; unfold get_waiter; rewrite Hwait.
  all: reflexivity.
Qed.

(** X4: when the state of the instance cannot be read, every lifecycle
    operation stops there: a credentials error becomes AWSAuthError, any
    other exception (a ClientError for an unknown instance, say) is raised
    as it is, not as OperationError, and nothing further is requested. *)
Theorem lifecycle_state_read_fails (self : EC2Manager) (id : string) (h : history) (e : exn) :
  let load := InstanceLoad {| resource_of := ec2_res self; instance_id_of := id |} in
  let raised :=
    if credentials_error e
    then AWSAuthError "Unable to locate credentials. Check AWS_PROFILE/SSO."
    else e in
  sdk env _ h load = Raises e ->
  stop_instance env self id h = (Raises raised, Ev load (Raises e) :: h) /\
  start_instance env self id h = (Raises raised, Ev load (Raises e) :: h) /\
  terminate_instance env self id h = (Raises raised, Ev load (Raises e) :: h).
Proof.
  intros load raised Hload.
  unfold stop_instance, start_instance, terminate_instance, _get_instance_state,
    bind, try_except, perform, raise.
  fold load. rewrite Hload. subst raised.
  destruct e; repeat split.
Qed.

(** X5: whatever the provider answers, the only request changing provider
    state that a lifecycle operation can make is its own, for the one
    instance it was called with. *)
Theorem lifecycle_changes_only_its_instance (self : EC2Manager) (id : string) :
  only (fun e => mutating e = true ->
                 exists o, e = Ev (StopInstances (ec2_client self) [id]) o)
    (stop_instance env self id) /\
  only (fun e => mutating e = true ->
                 exists o, e = Ev (StartInstances (ec2_client self) [id]) o)
    (start_instance env self id) /\
  only (fun e => mutating e = true ->
                 exists o, e = Ev (TerminateInstances (ec2_client self) [id]) o)
    (terminate_instance env self id).
Proof.
  repeat match goal with |- _ /\ _ => split end.
  all: unfold stop_instance, start_instance, terminate_instance.
  all: apply only_bind; [apply only_get_instance_state; intros o; discriminate|intros state].
  all: walk; cbn; intros Hm; try discriminate Hm; eexists; reflexivity.
Qed.

(** *** create_instance *)

Ltac open_sections Hreq :=
  unfold assembled_request in Hreq;
  unfold create_instance, bind, lift, generate_client_token, try_except, perform, raise, ret;
  destruct (py_get _ "instance" _) as [instance_cfg|]; [|discriminate];
  destruct (py_get _ "network" _) as [network_cfg|]; [|discriminate];
  destruct (py_get _ "user_data" _) as [user_data|]; [|discriminate];
  destruct (py_get _ "tags" _) as [tags|]; [|discriminate];
  rewrite Hreq.

(** X6: when the run request is answered with instances, [create_instance]
    waits for the first of them to run, reloads it, and returns its
    identifier with the state and addresses read back; the other instances
    of the answer play no part. *)
Theorem create_instance_returns_first_instance (self : EC2Manager) (config : pyval)
    (h : history) (params : run_params) (resp : run_response) (first : launched)
    (others : list launched) (instance_id : string) (attrs : instance_attrs) :
  let h1 := Ev Uuid4 (Returns (uuid4 env h)) :: h in
  let run := RunInstances (ec2_client self) params in
  let h2 := Ev run (Returns resp) :: h1 in
  let inst_res := {| resource_of := ec2_res self; instance_id_of := instance_id |} in
  let h3 := Ev (InstanceWaitUntilRunning inst_res) (Returns tt) :: h2 in
  assembled_request env config (uuid4 env h) = Returns params ->
  sdk env _ h1 run = Returns resp ->
  resp_Instances resp = Some (first :: others) ->
  launched_InstanceId first = Some instance_id ->
  sdk env _ h2 (InstanceWaitUntilRunning inst_res) = Returns tt ->
  sdk env _ h3 (InstanceReload inst_res) = Returns attrs ->
  create_instance env self config h =
    (Returns {| cr_InstanceId := instance_id;
                cr_State := attr_state attrs;
                cr_PrivateIpAddress := attr_private_ip_address attrs;
                cr_PublicIpAddress := attr_public_ip_address attrs |},
     Ev (InstanceReload inst_res) (Returns attrs) :: h3).
Proof.
  intros h1 run h2 inst_res h3 Hreq Hrun Hinstances Hid Hwait Hreload.
  open_sections Hreq. fold h1 run. rewrite Hrun, Hinstances. cbn [or_empty]. rewrite Hid.
  fold h2 inst_res. rewrite Hwait. fold h3. rewrite Hreload. reflexivity.
Qed.

(** X7: when the run request raises, [create_instance] stops there without
    waiting: a credentials error becomes AWSAuthError, a ClientError becomes
    OperationError("Failed to create instance: ...") with the provider's
    message, anything else is raised as it is. *)
Theorem create_instance_request_fails (self : EC2Manager) (config : pyval) (h : history)
    (params : run_params) (e : exn) :
  let h1 := Ev Uuid4 (Returns (uuid4 env h)) :: h in
  let run := RunInstances (ec2_client self) params in
  let raised :=
    match e with
    | NoCredentialsError | PartialCredentialsError =>
        AWSAuthError "Unable to locate credentials. Check AWS_PROFILE/SSO."
    | ClientError msg => OperationError ("Failed to create instance: " ++ msg)
    | _ => e
    end in
  assembled_request env config (uuid4 env h) = Returns params ->
  sdk env _ h1 run = Raises e ->
  create_instance env self config h = (Raises raised, Ev run (Raises e) :: h1).
Proof.
  intros h1 run raised Hreq Hrun.
  open_sections Hreq. fold h1 run. rewrite Hrun. subst raised.
  destruct e; reflexivity.
Qed.

(** X8: when the answer's first instance has no InstanceId, the failure is
    a KeyError, raised before any wait. *)
Theorem create_instance_without_instance_id (self : EC2Manager) (config : pyval)
    (h : history) (params : run_params) (resp : run_response) (first : launched)
    (others : list launched) :
  let h1 := Ev Uuid4 (Returns (uuid4 env h)) :: h in
  let run := RunInstances (ec2_client self) params in
  assembled_request env config (uuid4 env h) = Returns params ->
  sdk env _ h1 run = Returns resp ->
  resp_Instances resp = Some (first :: others) ->
  launched_InstanceId first = None ->
  create_instance env self config h =
    (Raises (KeyError "InstanceId"), Ev run (Returns resp) :: h1).
Proof.
  intros h1 run Hreq Hrun Hinstances Hid.
  open_sections Hreq. fold h1 run. rewrite Hrun, Hinstances. cbn [or_empty]. rewrite Hid.
  reflexivity.
Qed.

(** X9: security groups given as one non-empty string, not as a list, are
    sent as the list of the characters of that string. *)
Theorem security_groups_string_is_split (config : pyval) (network_cfg : list (string * pyval))
    (groups token : string) (params : run_params) :
  py_get config "network" (PDict []) = Returns (PDict network_cfg) ->
  dict_lookup "SecurityGroupIds" network_cfg = Some (PStr groups) ->
  groups <> "" ->
  assembled_request env config token = Returns params ->
  rp_SecurityGroupIds params = Some (chars groups).
Proof.
  intros Hnetwork Hgroups Hnonempty Hreq.
  assert (Htruthy : truthy (PStr groups) = true).
  { cbn. destruct (String.eqb_spec groups ""); [contradiction|reflexivity]. }
  unfold assembled_request in Hreq. rewrite Hnetwork in Hreq.
  destruct (py_get config "instance" _) as [instance_cfg|]; [|discriminate].
  destruct (py_get config "user_data" _) as [user_data|]; [|discriminate].
  destruct (py_get config "tags" _) as [tags|]; [|discriminate].
  unfold run_request_params, and_then in Hreq.
  unfold py_get at 7 in Hreq. unfold py_getitem at 3 in Hreq.
  rewrite Hgroups, Htruthy in Hreq. cbn [py_list] in Hreq.
  repeat match type of Hreq with
         | context [match ?x with _ => _ end] => destruct x; try discriminate Hreq
         end.
  all: now injection Hreq as <-.
Qed.

(** *** load_config *)

Lemma load_config_outcome (filepath : string) (h : history) (loaded : pyval) :
  sdk env _ h (ReadYaml filepath) = Returns loaded ->
  load_config env filepath h =
    ((if has_instance_section loaded then Returns loaded
      else if truthy loaded then
        match loaded with
        | PDict _ => Raises (ValueError "Missing 'instance' section in configuration")
        | _ => Raises (ValueError "Configuration file must define a YAML mapping at the top level")
        end
      else Raises (ValueError "Missing 'instance' section in configuration")),
     Ev (ReadYaml filepath) (Returns loaded) :: h).
Proof.
  intros Hread. unfold load_config, bind, perform, raise, ret. rewrite Hread.
  destruct loaded as [|b|n|s|items|entries]; cbn [truthy has_instance_section].
  - reflexivity.
  - now destruct b.
  - now destruct (negb (n =? 0)%Z).
  - now destruct (negb (s =? "")).
  - now destruct items.
  - destruct entries as [|entry entries]; [reflexivity|].
    now destruct (dict_lookup "instance" (entry :: entries)) as [[]|].
Qed.

(** X10: a document that is a mapping with a mapping under "instance" is
    returned by [load_config] exactly as it was read, whatever else it
    holds, after the file read alone. *)
Theorem load_config_accepts (filepath : string) (h : history) (loaded : pyval) :
  sdk env _ h (ReadYaml filepath) = Returns loaded ->
  has_instance_section loaded = true ->
  load_config env filepath h = (Returns loaded, Ev (ReadYaml filepath) (Returns loaded) :: h).
Proof.
  intros Hread Hok. rewrite (load_config_outcome _ _ _ Hread), Hok. reflexivity.
Qed.

(** X11: an empty document, or any other false one (an empty list, zero,
    an empty string), is treated as an empty mapping: the complaint is about
    the missing "instance" section.  Only a true document that is not a
    mapping is told to be a mapping. *)
Theorem load_config_messages (filepath : string) (h : history) (loaded : pyval) :
  sdk env _ h (ReadYaml filepath) = Returns loaded ->
  (truthy loaded = false ->
   fst (load_config env filepath h) =
     Raises (ValueError "Missing 'instance' section in configuration")) /\
  (truthy loaded = true -> (forall entries, loaded <> PDict entries) ->
   fst (load_config env filepath h) =
     Raises (ValueError "Configuration file must define a YAML mapping at the top level")).
Proof.
  intros Hread. rewrite (load_config_outcome _ _ _ Hread). cbn [fst]. split.
  - intros Hfalse. rewrite Hfalse.
    destruct loaded as [|b|n|s|items|entries]; cbn [has_instance_section]; try reflexivity.
    destruct entries; [reflexivity|discriminate Hfalse].
  - intros Htrue Hnot. rewrite Htrue.
    destruct loaded as [|b|n|s|items|entries]; cbn [has_instance_section]; try reflexivity.
    now destruct (Hnot entries).
Qed.

(** *** list_volumes and _all_regions *)

Lemma list_volumes_iterates (self : EC2Manager) (status_filter : option string)
    (h : history) (page_it : paged volume_page) :
  let Filters := status_filters status_filter in
  let get_paginator := GetPaginator (ec2_client self) "describe_volumes" in
  let paginate := Paginate (ec2_client self) "describe_volumes" Filters in
  let h1 := Ev get_paginator (Returns tt) :: h in
  let h2 := Ev paginate (Returns tt) :: h1 in
  sdk env _ h get_paginator = Returns tt ->
  sdk env _ h1 paginate = Returns tt ->
  sdk env _ h2 (IterVolumePages (ec2_client self) Filters) = Returns page_it ->
  exists body,
    list_volumes env self status_filter h =
      for_pages page_it body []
        (Ev (IterVolumePages (ec2_client self) Filters) (Returns page_it) :: h2) /\
    forall page acc h0, exists acc', body page acc h0 = (Returns acc', h0).
Proof.
  intros Filters get_paginator paginate h1 h2.
  subst Filters get_paginator paginate h1 h2. unfold status_filters.
  intros Hget Hpaginate Hiter.
  eexists. split.
  - unfold list_volumes, bind, try_except, perform.
    destruct status_filter as [status|]; [destruct (String.eqb status "")|];
      cbv zeta; rewrite Hget; cbv beta iota; rewrite Hpaginate; cbv beta iota;
      rewrite Hiter; reflexivity.
  - intros page acc h0. cbv beta.
    generalize acc. induction (or_empty (page_Volumes page)) as [|vol vols IH]; intros acc0.
    + now exists acc0.
    + cbn [for_]. unfold bind at 1, ret at 1. apply IH.
Qed.

Lemma for_pure {X S : Type} (body : X -> S -> M S) (xs : list X) :
  (forall x acc h, exists acc', body x acc h = (Returns acc', h)) ->
  forall acc h, exists acc', for_ xs body acc h = (Returns acc', h).
Proof.
  intros Hbody. induction xs as [|x xs IH]; intros acc h; cbn [for_].
  - now exists acc.
  - unfold bind. destruct (Hbody x acc h) as [acc1 Hrun]. rewrite Hrun. apply IH.
Qed.

(** X12: when the iteration over the pages of volumes fails, after however
    many pages, [list_volumes] raises that very exception (a credentials
    error too: it is not turned into AWSAuthError there) and the records
    gathered so far are lost. *)
Theorem list_volumes_iteration_breaks_off (self : EC2Manager) (status_filter : option string)
    (h : history) (page_it : paged volume_page) (e : exn) :
  let Filters := status_filters status_filter in
  let get_paginator := GetPaginator (ec2_client self) "describe_volumes" in
  let paginate := Paginate (ec2_client self) "describe_volumes" Filters in
  let h1 := Ev get_paginator (Returns tt) :: h in
  let h2 := Ev paginate (Returns tt) :: h1 in
  sdk env _ h get_paginator = Returns tt ->
  sdk env _ h1 paginate = Returns tt ->
  sdk env _ h2 (IterVolumePages (ec2_client self) Filters) = Returns page_it ->
  failure page_it = Some e ->
  list_volumes env self status_filter h =
    (Raises e, Ev (IterVolumePages (ec2_client self) Filters) (Returns page_it) :: h2).
Proof.
  intros Filters get_paginator paginate h1 h2 Hget Hpaginate Hiter Hfailure.
  destruct (list_volumes_iterates self status_filter h page_it Hget Hpaginate Hiter)
    as (body & Hrun & Hbody).
  rewrite Hrun. unfold for_pages, bind.
  destruct (for_pure body (pages page_it) Hbody [] 
              (Ev (IterVolumePages (ec2_client self) Filters) (Returns page_it) :: h2))
    as [acc Hloop].
  fold Filters get_paginator paginate h1 h2. rewrite Hloop, Hfailure. reflexivity.
Qed.

(** X13: a credentials error while the paginator is obtained makes
    [list_volumes] raise AWSAuthError without iterating. *)
Theorem list_volumes_without_credentials (self : EC2Manager) (status_filter : option string)
    (h : history) (e : exn) :
  let get_paginator := GetPaginator (ec2_client self) "describe_volumes" in
  credentials_error e = true ->
  sdk env _ h get_paginator = Raises e ->
  list_volumes env self status_filter h =
    (Raises (AWSAuthError "Unable to locate credentials. Check AWS_PROFILE/SSO."),
     Ev get_paginator (Raises e) :: h).
Proof.
  intros get_paginator He Hget.
  unfold list_volumes, bind, try_except, perform, raise. cbv zeta.
  fold get_paginator. rewrite Hget.
  destruct e; try discriminate He; reflexivity.
Qed.

Lemma comprehension_named (names : list string) :
  comprehension
    (fun r => match entry_RegionName r with
              | Some name => Returns name
              | None => Raises (KeyError "RegionName")
              end) (map named names) = Returns names.
Proof.
  induction names as [|name names IH]; [reflexivity|].
  cbn [map comprehension named entry_RegionName and_then]. now rewrite IH.
Qed.

(** X14: [_all_regions] asks for the enabled regions only and returns the
    names of the entries in the order of the answer. *)
Theorem all_regions_names (self : EC2Manager) (h : history) (names : list string) :
  let describe := DescribeRegions (ec2_client self) false in
  sdk env _ h describe = Returns {| resp_Regions := Some (map named names) |} ->
  _all_regions env self h =
    (Returns names,
     Ev describe (Returns {| resp_Regions := Some (map named names) |}) :: h).
Proof.
  intros describe Hdescribe.
  unfold _all_regions, bind, try_except, perform, lift. fold describe.
  rewrite Hdescribe. cbn [resp_Regions or_empty].
  rewrite comprehension_named. reflexivity.
Qed.

(** X15: one entry without a RegionName in the answer makes
    [_all_regions] raise KeyError; no list of the other names is returned. *)
Theorem all_regions_entry_without_name (self : EC2Manager) (h : history)
    (resp : regions_response) :
  sdk env _ h (DescribeRegions (ec2_client self) false) = Returns resp ->
  In {| entry_RegionName := None |} (or_empty (resp_Regions resp)) ->
  fst (_all_regions env self h) = Raises (KeyError "RegionName").
Proof.
  intros Hdescribe Hin.
  unfold _all_regions, bind, try_except, perform, lift. rewrite Hdescribe. cbn [fst].
  induction (or_empty (resp_Regions resp)) as [|[name] entries IH]; [destruct Hin|].
  cbn [comprehension and_then entry_RegionName].
  destruct name as [name|]; [|reflexivity].
  destruct Hin as [Hin|Hin]; [discriminate Hin|].
  specialize (IH Hin).
  destruct (comprehension _ entries); [discriminate IH|].
  now injection IH as ->.
Qed.

(** *** What the reports never do *)

(** X16: whatever the provider answers, and however they end,
    [find_wasteful_resources], [list_volumes] and [_all_regions] make no
    request that changes provider state. *)
Theorem reports_change_nothing (self : EC2Manager) (regions : option (list string))
    (idle_cpu_threshold : float) (status_filter : option string) :
  only read_only (find_wasteful_resources env self regions idle_cpu_threshold) /\
  only read_only (list_volumes env self status_filter) /\
  only read_only (_all_regions env self).
Proof.
  repeat match goal with |- _ /\ _ => split end.
  all: unfold find_wasteful_resources, list_volumes, _all_regions, _average_cpu_utilization,
         new_session, session_client; cbv zeta.
  all: walk; reflexivity.
Qed.

(** X17: with a non-empty list of regions given, [find_wasteful_resources]
    never asks the provider for its regions. *)
Theorem explicit_regions_are_not_looked_up (self : EC2Manager) (region : string)
    (regions : list string) (idle_cpu_threshold : float) :
  only (fun e => is_describe_regions e = false)
    (find_wasteful_resources env self (Some (region :: regions)) idle_cpu_threshold).
Proof.
  unfold find_wasteful_resources, _average_cpu_utilization, new_session, session_client;
    cbv zeta.
  walk; reflexivity.
Qed.

(** X18: every metric request of a report asks for the Average of AWS/EC2
    CPUUtilization of one instance, in six-hour periods, over a window of
    exactly fourteen days. *)
Theorem report_metric_requests (self : EC2Manager) (regions : option (list string))
    (idle_cpu_threshold : float) :
  only (fun e =>
          forall c req, In (c, req) (metric_request_of e) ->
            mr_Namespace req = "AWS/EC2" /\
            mr_MetricName req = "CPUUtilization" /\
            mr_Statistics req = ["Average"] /\
            mr_Period req = 21600%Z /\
            (mr_EndTime req - mr_StartTime req = 14 * 86400)%Z /\
            exists id, mr_Dimensions req = [("InstanceId", id)])
    (find_wasteful_resources env self regions idle_cpu_threshold).
Proof.
  unfold find_wasteful_resources, _all_regions, _average_cpu_utilization,
    new_session, session_client; cbv zeta.
  walk.
  all: intros c0 req0 Hin; cbn in Hin; try contradiction.
  all: destruct Hin as [Hin|[]]; injection Hin as <- <-; cbn.
  all: repeat split; try lia; eexists; reflexivity.
Qed.

(** *** The report: regions and orphaned volumes *)

(** X19: the report asks each region for the volumes in status "available"
    and reports every volume of the answer as orphaned, region by region and
    in page order, with its identifier, size and state; the state is not
    checked again. *)
Theorem find_wasteful_resources_orphaned_volumes (inv : inventory)
    (volumes_in : string -> list volume_page) (self : EC2Manager) (region : string)
    (regions : list string) (threshold : float) (h : history) :
  let orphan := fun region vol =>
    {| ov_Region := region;
       ov_VolumeId := vol_VolumeId vol;
       ov_SizeGiB := vol_Size vol;
       ov_State := vol_State vol |} in
  serves env inv ->
  serves_volumes env volumes_in ->
  exists report h',
    find_wasteful_resources env self (Some (region :: regions)) threshold h =
      (Returns report, h') /\
    orphaned_volumes report =
      flat_map (fun region => map (orphan region) (volumes_of (volumes_in region)))
        (region :: regions).
Proof.
  intros orphan Hserves Hvolumes.
  pose proof Hserves as (Hsession & Hclient & Hget & Hpaginate & _ & Hinstances & _).
  unfold find_wasteful_resources.
  change (bind (ret (region :: regions)) ?k h) with (k (region :: regions) h).
  cbv beta.
  match goal with
  | |- context [for_ (region :: regions) ?body ?init] =>
      set (region_body := body);
      change (exists report h',
                for_ (region :: regions) region_body init h = (Returns report, h') /\
                orphaned_volumes report =
                  (orphaned_volumes init ++
                   flat_map (fun region => map (orphan region) (volumes_of (volumes_in region)))
                     (region :: regions))%list)
  end.
  apply for_accumulates. clear h. intros r acc h. subst region_body. cbv beta.
  unfold new_session, session_client, bind, perform, ret.
  set (g_page := fun page => flat_map (fun vol => [orphan r vol]) (or_empty (page_Volumes page))).
  destruct (str_truthy _); rewrite Hsession; cbv beta iota; rewrite Hclient; cbv beta iota;
    rewrite Hget; cbv beta iota; rewrite Hpaginate; cbv beta iota.
  all: match goal with
       | |- context [sdk env (paged volume_page) ?h0 (IterVolumePages ?c _)] =>
           rewrite (Hvolumes h0 c r eq_refl)
       end.
  all: match goal with
       | |- context [for_pages ?page_it ?body ?acc0 ?h0] =>
           assert (Hbody : forall page acc1 h1,
                     exists acc' h',
                       body page acc1 h1 = (Returns acc', h') /\
                       orphaned_volumes acc' = (orphaned_volumes acc1 ++ g_page page)%list);
           [ intros page acc1 h1;
             apply (for_accumulates orphaned_volumes (fun vol => [orphan r vol]));
             intros vol acc2 h2; eexists; eexists; split; reflexivity
           | destruct (for_pages_accumulates orphaned_volumes g_page body page_it eq_refl
                         Hbody acc0 h0) as (acc1 & h1 & Hrun & Hfound) ]
       end.
  all: rewrite Hrun; clear Hrun Hbody.
  all: rewrite Hget; cbv beta iota; rewrite Hpaginate; cbv beta iota.
  all: match goal with
       | |- context [sdk env (paged reservation_page) ?h0 (IterInstancePages ?c None)] =>
           rewrite (Hinstances h0 c r eq_refl)
       end.
  all: match goal with
       | |- context [for_pages ?page_it ?body ?acc0 ?h0] =>
           assert (Hbody : forall page acc3 h3,
                     exists acc' h',
                       body page acc3 h3 = (Returns acc', h') /\
                       orphaned_volumes acc' = orphaned_volumes acc3);
           [ intros page acc3 h3; apply (for_preserves orphaned_volumes);
             intros reservation acc4 h4; apply (for_preserves orphaned_volumes);
             intros inst acc5 h5;
             destruct (state_is (inst_state_name inst) "running"); cbn [negb];
             [ destruct (average_cpu_served env inv self (inst_InstanceId inst) r h5 Hserves)
                 as [h6 Havg];
               rewrite Havg;
               destruct (or_empty (datapoints_of inv r (inst_InstanceId inst))) as [|dp dps];
               [ now exists acc5, h6
               | destruct (float_lt (mean_of_averages (dp :: dps)) threshold);
                 [ eexists; exists h6; split; reflexivity
                 | now exists acc5, h6 ] ]
             | now exists acc5, h5 ]
           | destruct (for_pages_preserves orphaned_volumes body page_it eq_refl
                         Hbody acc0 h0) as (acc2 & h2 & Hrun & Hkept) ]
       end.
  all: exists acc2, h2; split; [exact Hrun|].
  all: rewrite Hkept, Hfound; f_equal; cbn [pages].
  all: unfold volumes_of; rewrite <- flat_map_singleton, flat_map_flat_map; reflexivity.
Qed.

(** X20: without regions given (none, or an empty list) the report is made
    over the regions the provider lists: it continues exactly as the report
    over those names does once the list has been read. *)
Theorem default_regions_are_the_providers (self : EC2Manager) (name : string)
    (names : list string) (threshold : float) (h : history) :
  let describe := DescribeRegions (ec2_client self) false in
  let listed := {| resp_Regions := Some (map named (name :: names)) |} in
  sdk env _ h describe = Returns listed ->
  find_wasteful_resources env self None threshold h =
    find_wasteful_resources env self (Some (name :: names)) threshold
      (Ev describe (Returns listed) :: h) /\
  find_wasteful_resources env self (Some []) threshold h =
    find_wasteful_resources env self None threshold h.
Proof.
  intros describe listed Hdescribe. split; [|reflexivity].
  unfold find_wasteful_resources.
  change (bind (ret (name :: names)) ?k ?h0) with (k (name :: names) h0). cbv beta.
  unfold bind at 1. unfold _all_regions, bind at 1, try_except, perform, lift.
  fold describe. rewrite Hdescribe. unfold listed at 1. cbn [resp_Regions or_empty].
  rewrite comprehension_named. reflexivity.
Qed.

(** *** __init__ *)

(** X21: when the constructions succeed, the four handles of the manager
    share one session, for the region asked for and for the profile named by
    AWS_PROFILE or, when that is unset or empty, by AWS_DEFAULT_PROFILE (an
    empty name counts as none). *)
Theorem init_shares_one_session (region : option string) (h : history) :
  let profile :=
    if str_truthy (environ env "AWS_PROFILE") then environ env "AWS_PROFILE"
    else if str_truthy (environ env "AWS_DEFAULT_PROFILE")
         then environ env "AWS_DEFAULT_PROFILE"
         else None in
  let session := {| profile_name := profile; region_name := region |} in
  (forall h0 p, sdk env _ h0 (SessionNew p region) = Returns tt) ->
  (forall h0 s service, sdk env _ h0 (SessionClient s service) = Returns tt) ->
  (forall h0 s service, sdk env _ h0 (SessionResource s service) = Returns tt) ->
  fst (__init__ env region h) =
    Returns {| ec2_client := {| client_session := session; service_name := "ec2" |};
               ec2_res := {| client_session := session; service_name := "ec2" |};
               cw_client := {| client_session := session; service_name := "cloudwatch" |};
               sts_client := {| client_session := session; service_name := "sts" |} |}.
Proof.
  intros profile session Hsession Hclient Hresource. subst session profile.
  unfold __init__, try_except, init_body, new_session, session_client, session_resource,
    bind, perform, ret, str_or.
  destruct (str_truthy (environ env "AWS_PROFILE")) eqn:Hprofile;
    [rewrite Hprofile|destruct (str_truthy (environ env "AWS_DEFAULT_PROFILE")) eqn:Hdefault].
  all: rewrite Hsession; cbv beta iota; rewrite !Hclient; cbv beta iota;
    rewrite Hresource; cbv beta iota; rewrite !Hclient; reflexivity.
Qed.

(** *** The commands *)

Lemma echo_or_exit_outcome {A : Type} (operation : M A) (h : history) :
  echo_or_exit operation h =
    match operation h with
    | (Returns result, h') => (Returns (Printed result), h')
    | (Raises (AWSAuthError msg), h') => (Returns (Exited 1 msg), h')
    | (Raises (OperationError msg), h') => (Returns (Exited 1 msg), h')
    | (Raises e, h') => (Raises e, h')
    end.
Proof.
  unfold echo_or_exit, try_except, bind, ret, raise.
  destruct (operation h) as [[result|e] h']; [reflexivity|now destruct e].
Qed.

(** X22: in a lifecycle command, an OperationError or AWSAuthError raised
    by the operation ends the command with exit code 1 and the message of
    the exception on standard error. *)
Theorem lifecycle_commands_exit_on_failure (region : option string) (id : string)
    (h h0 h1 : history) (mgr : EC2Manager) (e : exn) (msg : string) :
  __init__ env region h = (Returns mgr, h0) ->
  e = OperationError msg \/ e = AWSAuthError msg ->
  (stop_instance env mgr id h0 = (Raises e, h1) ->
   instance_stop env region id h = (Returns (Exited 1 msg), h1)) /\
  (start_instance env mgr id h0 = (Raises e, h1) ->
   instance_start env region id h = (Returns (Exited 1 msg), h1)) /\
  (terminate_instance env mgr id h0 = (Raises e, h1) ->
   instance_terminate env region id h = (Returns (Exited 1 msg), h1)).
Proof.
  intros Hinit He.
  repeat match goal with |- _ /\ _ => split end; intros Hop.
  all: unfold instance_stop, instance_start, instance_terminate, bind at 1; rewrite Hinit.
  all: rewrite echo_or_exit_outcome, Hop; now destruct He as [->| ->].
Qed.

(** X23: an instance whose state cannot be read for a reason other than
    credentials (an unknown identifier: a ClientError) makes the lifecycle
    commands end with that exception; the handler of the command does not
    catch it. *)
Theorem lifecycle_commands_let_client_error_through (region : option string) (id : string)
    (h h0 : history) (mgr : EC2Manager) (msg : string) :
  let load := InstanceLoad {| resource_of := ec2_res mgr; instance_id_of := id |} in
  __init__ env region h = (Returns mgr, h0) ->
  sdk env _ h0 load = Raises (ClientError msg) ->
  fst (instance_stop env region id h) = Raises (ClientError msg) /\
  fst (instance_start env region id h) = Raises (ClientError msg) /\
  fst (instance_terminate env region id h) = Raises (ClientError msg).
Proof.
  intros load Hinit Hload.
  repeat match goal with |- _ /\ _ => split end.
  all: unfold instance_stop, instance_start, instance_terminate, bind at 1; rewrite Hinit.
  all: rewrite echo_or_exit_outcome.
  all: unfold stop_instance, start_instance, terminate_instance, _get_instance_state,
         bind, try_except, perform, raise.
  all: fold load; rewrite Hload; reflexivity.
Qed.

(** X24: the commands build the manager outside their [try]: when its
    construction runs into missing credentials, the command ends with the
    AWSAuthError itself, not with the message and exit code 1 that the same
    exception gets when an operation raises it. *)
Theorem commands_do_not_catch_constructor_failure (region : option string) (id : string)
    (status : option string) (regions : list string) (threshold : float)
    (h : history) (e : exn) :
  let raised := AWSAuthError "AWS credentials not found. Use IAM roles or SSO profiles." in
  credentials_error e = true ->
  fst (init_body env region h) = Raises e ->
  fst (instance_stop env region id h) = Raises raised /\
  fst (instance_start env region id h) = Raises raised /\
  fst (instance_terminate env region id h) = Raises raised /\
  fst (volume_list env region status h) = Raises raised /\
  fst (report_cost env region regions threshold h) = Raises raised.
Proof.
  intros raised He Hbody.
  assert (Hinit : exists h0,
            __init__ env region h =
              (Raises (AWSAuthError "AWS credentials not found. Use IAM roles or SSO profiles."),
               h0)).
  { unfold __init__, try_except. destruct (init_body env region h) as [o h0].
    cbn [fst] in Hbody. subst o. exists h0. destruct e; try discriminate He; reflexivity. }
  destruct Hinit as [h0 Hinit].
  repeat match goal with |- _ /\ _ => split end.
  all: unfold instance_stop, instance_start, instance_terminate, volume_list, report_cost,
         bind at 1; rewrite Hinit; reflexivity.
Qed.

(** X25: [instance create] reads the configuration before it builds the
    manager: a document without an "instance" mapping ends the command with
    a ValueError, uncaught, when nothing but the file has been touched. *)
Theorem instance_create_checks_configuration_first (region : option string)
    (config_path : string) (h : history) (loaded : pyval) :
  sdk env _ h (ReadYaml config_path) = Returns loaded ->
  has_instance_section loaded = false ->
  exists message,
    instance_create env region config_path h =
      (Raises (ValueError message), Ev (ReadYaml config_path) (Returns loaded) :: h).
Proof.
  intros Hread Hbad.
  unfold instance_create, bind at 1. rewrite (load_config_outcome _ _ _ Hread), Hbad.
  destruct (truthy loaded); [destruct loaded|]; eexists; reflexivity.
Qed.

End MoreProperties.

(** *** Runs of the further properties *)

Lemma lifecycle_transition_witness :
  stop_instance (scripted (with_state "running")) a_manager "i-1" [] =
    (Returns {| lr_InstanceId := "i-1"; lr_State := Some "stopped"; lr_Message := None |},
     [Ev (WaiterWait (get_waiter (ec2_client a_manager) "instance_stopped") ["i-1"]) (Returns tt);
      Ev (StopInstances (ec2_client a_manager) ["i-1"]) (Returns tt);
      Ev (InstanceLoad {| resource_of := ec2_res a_manager; instance_id_of := "i-1" |})
         (Returns (attrs_in "running"))]).
Proof.
  exact (proj1 (lifecycle_transition (scripted (with_state "running")) a_manager "i-1" []
                  (attrs_in "running") eq_refl) eq_refl (conj eq_refl eq_refl)).
Defined.

Lemma lifecycle_request_rejected_witness :
  fst (stop_instance (rejecting (with_state "running") "IncorrectInstanceState")
         a_manager "i-1" []) =
    Raises (OperationError "Failed to stop instance i-1: IncorrectInstanceState").
Proof.
  rewrite (proj1 (lifecycle_request_rejected
                    (rejecting (with_state "running") "IncorrectInstanceState")
                    a_manager "i-1" [] (attrs_in "running") "IncorrectInstanceState" eq_refl)
             eq_refl eq_refl).
  reflexivity.
Defined.

Lemma lifecycle_wait_gives_up_witness :
  fst (start_instance (timing_out (with_state "stopped") "Max attempts exceeded")
         a_manager "i-1" []) =
    Raises (WaiterError "Max attempts exceeded").
Proof.
  exact (proj1 (proj2 (lifecycle_wait_gives_up
                         (timing_out (with_state "stopped") "Max attempts exceeded")
                         a_manager "i-1" [] (attrs_in "stopped") "Max attempts exceeded"
                         eq_refl))
           eq_refl (conj eq_refl eq_refl)).
Defined.

Lemma lifecycle_state_read_fails_witness :
  terminate_instance (not_found quiet "InvalidInstanceID.NotFound") a_manager "i-9" [] =
    (Raises (ClientError "InvalidInstanceID.NotFound"),
     [Ev (InstanceLoad {| resource_of := ec2_res a_manager; instance_id_of := "i-9" |})
         (Raises (ClientError "InvalidInstanceID.NotFound"))]).
Proof.
  exact (proj2 (proj2 (lifecycle_state_read_fails
                         (not_found quiet "InvalidInstanceID.NotFound") a_manager "i-9" []
                         (ClientError "InvalidInstanceID.NotFound") eq_refl))).
Defined.

Lemma create_instance_returns_first_instance_witness :
  fst (create_instance
         (scripted (launching (Some [ {| launched_InstanceId := Some "i-first" |};
                                      {| launched_InstanceId := Some "i-second" |} ])))
         a_manager (document quiet) []) =
    Returns {| cr_InstanceId := "i-first"; cr_State := Some "running";
               cr_PrivateIpAddress := Some "10.0.0.7"; cr_PublicIpAddress := None |}.
Proof.
  rewrite (create_instance_returns_first_instance
             (scripted (launching (Some [ {| launched_InstanceId := Some "i-first" |};
                                          {| launched_InstanceId := Some "i-second" |} ])))
             a_manager (document quiet) [] _ _ _ _ "i-first" (attrs_in "running")
             eq_refl eq_refl eq_refl eq_refl eq_refl eq_refl).
  reflexivity.
Defined.

Lemma create_instance_request_fails_witness :
  fst (create_instance (rejecting quiet "InvalidAMIID.Malformed") a_manager
         (document quiet) []) =
    Raises (OperationError "Failed to create instance: InvalidAMIID.Malformed").
Proof.
  rewrite (create_instance_request_fails (rejecting quiet "InvalidAMIID.Malformed") a_manager
             (document quiet) [] _ (ClientError "InvalidAMIID.Malformed") eq_refl eq_refl).
  reflexivity.
Defined.

Lemma create_instance_without_instance_id_witness :
  fst (create_instance (scripted (launching (Some [ {| launched_InstanceId := None |} ])))
         a_manager (document quiet) []) =
    Raises (KeyError "InstanceId").
Proof.
  rewrite (create_instance_without_instance_id
             (scripted (launching (Some [ {| launched_InstanceId := None |} ])))
             a_manager (document quiet) [] _ _ _ _ eq_refl eq_refl eq_refl eq_refl).
  reflexivity.
Defined.

Lemma security_groups_string_is_split_witness :
  exists params,
    assembled_request (scripted quiet) groups_in_a_string "u" = Returns params /\
    rp_SecurityGroupIds params = Some [PStr "s"; PStr "g"; PStr "-"; PStr "1"].
Proof.
  eexists. split; [reflexivity|].
  refine (security_groups_string_is_split (scripted quiet) groups_in_a_string
            [("SecurityGroupIds", PStr "sg-1")] "sg-1" "u" _ eq_refl eq_refl _ eq_refl).
  discriminate.
Defined.

Lemma load_config_accepts_witness :
  load_config (scripted (with_document groups_in_a_string)) "instance.yaml" [] =
    (Returns groups_in_a_string,
     [Ev (ReadYaml "instance.yaml") (Returns groups_in_a_string)]).
Proof.
  exact (load_config_accepts (scripted (with_document groups_in_a_string)) "instance.yaml" []
           groups_in_a_string eq_refl eq_refl).
Defined.

Lemma load_config_messages_witness :
  fst (load_config (scripted (with_document PNone)) "empty.yaml" []) =
    Raises (ValueError "Missing 'instance' section in configuration").
Proof.
  exact (proj1 (load_config_messages (scripted (with_document PNone)) "empty.yaml" []
                  PNone eq_refl) eq_refl).
Defined.

Lemma list_volumes_iteration_breaks_off_witness :
  fst (list_volumes (breaking_off with_volumes NoCredentialsError) a_manager None []) =
    Raises NoCredentialsError.
Proof.
  rewrite (list_volumes_iteration_breaks_off (breaking_off with_volumes NoCredentialsError)
             a_manager None [] {| pages := two_volume_pages; failure := Some NoCredentialsError |}
             NoCredentialsError eq_refl eq_refl eq_refl eq_refl).
  reflexivity.
Defined.

Lemma list_volumes_without_credentials_witness :
  fst (list_volumes (without_paginators with_volumes) a_manager (Some "available") []) =
    Raises (AWSAuthError "Unable to locate credentials. Check AWS_PROFILE/SSO.").
Proof.
  rewrite (list_volumes_without_credentials (without_paginators with_volumes) a_manager
             (Some "available") [] NoCredentialsError eq_refl eq_refl).
  reflexivity.
Defined.

Lemma all_regions_names_witness :
  fst (_all_regions (with_regions quiet (map named ["eu-west-1"; "us-east-1"])) a_manager []) =
    Returns ["eu-west-1"; "us-east-1"].
Proof.
  rewrite (all_regions_names (with_regions quiet (map named ["eu-west-1"; "us-east-1"]))
             a_manager [] ["eu-west-1"; "us-east-1"] eq_refl).
  reflexivity.
Defined.

Lemma all_regions_entry_without_name_witness :
  fst (_all_regions
         (with_regions quiet [named "eu-west-1"; {| entry_RegionName := None |}])
         a_manager []) =
    Raises (KeyError "RegionName").
Proof.
  refine (all_regions_entry_without_name
            (with_regions quiet [named "eu-west-1"; {| entry_RegionName := None |}])
            a_manager [] _ eq_refl _).
  cbn. right. now left.
Defined.

Lemma honouring_the_filter_serves (sc : script) :
  credentials sc = true -> serves (honouring_the_filter sc) (inventory_of sc).
Proof.
  intros Hcredentials. unfold serves. cbn. rewrite Hcredentials.
  repeat split; try reflexivity.
  intros h c Filters. destruct (asks_for_available Filters); eexists; reflexivity.
Qed.

Lemma honouring_the_filter_serves_volumes (sc : script) :
  serves_volumes (honouring_the_filter sc) (fun _ => skipn 1 (volume_pages sc)).
Proof. intros h c region _. reflexivity. Qed.

Lemma find_wasteful_resources_orphaned_volumes_witness :
  exists report,
    fst (find_wasteful_resources (honouring_the_filter fleet) a_manager
           (Some ["us-east-1"]) 5%Q []) =
      Returns report /\
    map ov_VolumeId (orphaned_volumes report) = [Some "vol-2"].
Proof.
  destruct (find_wasteful_resources_orphaned_volumes (honouring_the_filter fleet)
              (inventory_of fleet) (fun _ => skipn 1 (volume_pages fleet)) a_manager
              "us-east-1" [] 5%Q []
              (honouring_the_filter_serves fleet eq_refl)
              (honouring_the_filter_serves_volumes fleet))
    as (report & h' & Hrun & Horphans).
  exists report. rewrite Hrun. split; [reflexivity|].
  rewrite Horphans. reflexivity.
Defined.

Lemma default_regions_are_the_providers_witness :
  fst (find_wasteful_resources (with_regions fleet [named "us-east-1"]) a_manager None 5%Q []) =
    fst (find_wasteful_resources (with_regions fleet [named "us-east-1"]) a_manager
           (Some ["us-east-1"]) 5%Q
           [Ev (DescribeRegions (ec2_client a_manager) false)
               (Returns {| resp_Regions := Some [named "us-east-1"] |})]).
Proof.
  rewrite (proj1 (default_regions_are_the_providers (with_regions fleet [named "us-east-1"])
                    a_manager "us-east-1" [] 5%Q [] eq_refl)).
  reflexivity.
Defined.

Lemma init_shares_one_session_witness :
  let session := {| profile_name := Some "dev"; region_name := Some "eu-west-1" |} in
  fst (__init__ (with_environ quiet default_profile_only) (Some "eu-west-1") []) =
    Returns {| ec2_client := {| client_session := session; service_name := "ec2" |};
               ec2_res := {| client_session := session; service_name := "ec2" |};
               cw_client := {| client_session := session; service_name := "cloudwatch" |};
               sts_client := {| client_session := session; service_name := "sts" |} |}.
Proof.
  exact (init_shares_one_session (with_environ quiet default_profile_only) (Some "eu-west-1") []
           (fun _ _ => eq_refl) (fun _ _ _ => eq_refl) (fun _ _ _ => eq_refl)).
Defined.

Lemma lifecycle_commands_exit_on_failure_witness :
  fst (instance_stop (rejecting (with_state "running") "IncorrectInstanceState")
         (Some "us-east-1") "i-1" []) =
    Returns (Exited 1 "Failed to stop instance i-1: IncorrectInstanceState").
Proof.
  rewrite (proj1 (lifecycle_commands_exit_on_failure
                    (rejecting (with_state "running") "IncorrectInstanceState")
                    (Some "us-east-1") "i-1" [] _ _ _ _
                    "Failed to stop instance i-1: IncorrectInstanceState"
                    eq_refl (or_introl eq_refl)) eq_refl).
  reflexivity.
Defined.

Lemma lifecycle_commands_let_client_error_through_witness :
  fst (instance_stop (not_found quiet "InvalidInstanceID.NotFound")
         (Some "us-east-1") "i-9" []) =
    Raises (ClientError "InvalidInstanceID.NotFound").
Proof.
  exact (proj1 (lifecycle_commands_let_client_error_through
                  (not_found quiet "InvalidInstanceID.NotFound") (Some "us-east-1") "i-9"
                  [] _ _ "InvalidInstanceID.NotFound" eq_refl eq_refl)).
Defined.

Lemma commands_do_not_catch_constructor_failure_witness :
  fst (volume_list (scripted no_credentials) None (Some "available") []) =
    Raises (AWSAuthError "AWS credentials not found. Use IAM roles or SSO profiles.").
Proof.
  exact (proj1 (proj2 (proj2 (proj2
           (commands_do_not_catch_constructor_failure (scripted no_credentials) None "i-1"
              (Some "available") [] 5%Q [] NoCredentialsError eq_refl eq_refl))))).
Defined.

Lemma instance_create_checks_configuration_first_witness :
  exists message,
    instance_create (scripted (with_document (PList [PInt 1]))) None "instance.yaml" [] =
      (Raises (ValueError message),
       [Ev (ReadYaml "instance.yaml") (Returns (PList [PInt 1]))]).
Proof.
  exact (instance_create_checks_configuration_first
           (scripted (with_document (PList [PInt 1]))) None "instance.yaml" []
           (PList [PInt 1]) eq_refl eq_refl).
Defined.
